(** * ADS1115 over I2C: the register transaction layer and the polling task

    A shallow embedding of [user_main.c].  The vendor bus driver, the
    scheduler and the log sink are external collaborators: the driver is an
    interface ([i2c_driver]) whose answers are arbitrary, and every call that
    leaves the program is recorded in a trace, so that ordering, framing and
    abort properties can be stated on what the program really submits. *)

From Stdlib Require Import ZArith List String Ascii Bool Lia DecimalString.
Import ListNotations.
Local Open Scope Z_scope.

(** ** Machine integers *)

(** [uint8_t], [uint16_t] and [int16_t] conversions. *)
Definition uint8 (z : Z) : Z := z mod 256.
Definition uint16 (z : Z) : Z := z mod 65536.
Definition int16 (z : Z) : Z :=
  let r := z mod 65536 in if r <? 32768 then r else r - 65536.

(** A C [bool] parameter receiving an integer argument. *)
Definition c_bool (z : Z) : bool := negb (z =? 0).

(** ** Constants of [user_main.c] *)

Definition TAG : string := "main"%string.

(** Modelled from the spec: [esp_err.h] is not part of the sources; the
    success status is the one distinguished value of [esp_err_t]. *)
Definition esp_err_t := Z.
Definition ESP_OK : esp_err_t := 0.
Definition ESP_FAIL : esp_err_t := -1.

(** Modelled from the spec: [driver/i2c.h] is not part of the sources.  The
    direction bit is 0 for write and 1 for read; there is one controller
    instance and one (master) mode. *)
Definition i2c_port_t := Z.
Definition I2C_NUM_0 : i2c_port_t := 0.
Definition I2C_MASTER_WRITE : Z := 0.
Definition I2C_MASTER_READ : Z := 1.
Inductive i2c_mode_t := I2C_MODE_MASTER.

Definition I2C_EXAMPLE_MASTER_SCL_IO : Z := 2.
Definition I2C_EXAMPLE_MASTER_SDA_IO : Z := 0.
Definition I2C_EXAMPLE_MASTER_NUM : i2c_port_t := I2C_NUM_0.

Definition WRITE_BIT : Z := I2C_MASTER_WRITE.
Definition READ_BIT : Z := I2C_MASTER_READ.
Definition ACK_CHECK_EN : Z := 0x1.
Definition ACK_CHECK_DIS : Z := 0x0.
Definition ACK_VAL : Z := 0x0.
Definition NACK_VAL : Z := 0x1.
Definition LAST_NACK_VAL : Z := 0x2.

Definition ADS1115_SENSOR_ADDR_GND : Z := 0x48.
Definition ADS1115_SENSOR_ADDR_VDD : Z := 0x49.
Definition ADS1115_SENSOR_ADDR_SDA : Z := 0x4A.
Definition ADS1115_SENSOR_ADDR_SCL : Z := 0x4B.

Definition CONVERSION_REG : Z := 0x00.
Definition CONFIG_REG : Z := 0x01.
Definition LO_THRESH_REG : Z := 0x02.
Definition HI_THRESH_REG : Z := 0x03.

(** ** Data model *)

Record i2c_config_t := {
  mode : i2c_mode_t;
  sda_io_num : Z;
  sda_pullup_en : Z;
  scl_io_num : Z;
  scl_pullup_en : Z;
  clk_stretch_tick : Z
}.

(** One queued primitive of a command link.  A read primitive carries the
    address of the destination buffer, its length and the acknowledgment
    argument it was queued with. *)
Inductive i2c_cmd :=
| CmdStart
| CmdWriteByte (data : Z) (ack_en : bool)
| CmdWrite (data : list Z) (ack_en : bool)
| CmdRead (data : Z) (data_len : nat) (ack : Z)
| CmdStop.

Definition i2c_cmd_handle_t := list i2c_cmd.

(** Modelled from the spec: the link builders of the driver API
    ([driver/i2c.h] is not part of the sources).  A transaction is an ordered
    sequence of bus primitives and each call appends one; the byte of
    [i2c_master_write_byte] is a [uint8_t] and its flag a [bool]. *)
Definition i2c_cmd_link_create : i2c_cmd_handle_t := [].
Definition i2c_master_start (cmd : i2c_cmd_handle_t) : i2c_cmd_handle_t :=
  cmd ++ [CmdStart].
Definition i2c_master_write_byte (cmd : i2c_cmd_handle_t) (data : Z) (ack_en : Z)
  : i2c_cmd_handle_t :=
  cmd ++ [CmdWriteByte (uint8 data) (c_bool ack_en)].
Definition i2c_master_write (cmd : i2c_cmd_handle_t) (data : list Z) (ack_en : Z)
  : i2c_cmd_handle_t :=
  cmd ++ [CmdWrite data (c_bool ack_en)].
Definition i2c_master_read (cmd : i2c_cmd_handle_t) (data : Z) (data_len : nat)
  (ack : Z) : i2c_cmd_handle_t :=
  cmd ++ [CmdRead data data_len ack].
Definition i2c_master_stop (cmd : i2c_cmd_handle_t) : i2c_cmd_handle_t :=
  cmd ++ [CmdStop].

(** *** What a link puts on the wire *)

Inductive ack_signal := AckStandard | AckTerminal.

(** Modelled from the spec: the driver's handling of a queued read primitive
    ([driver/i2c.c] is not part of the sources).  Queued with the last-nack
    argument, every byte except the last receives a standard acknowledgment
    and the last byte receives the terminal (no-more-data) one; queued with
    the plain ack or nack argument every byte receives that one signal. *)
Definition read_byte_acks (data_len : nat) (ack : Z) : list ack_signal :=
  if ack =? LAST_NACK_VAL then
    match data_len with
    | O => []
    | S k => repeat AckStandard k ++ [AckTerminal]
    end
  else if ack =? ACK_VAL then repeat AckStandard data_len
  else repeat AckTerminal data_len.

Inductive bus_item :=
| BusStart
| BusWrite (byte : Z) (ack_checked : bool)
| BusRead (ack : ack_signal)
| BusStop.

Definition cmd_items (c : i2c_cmd) : list bus_item :=
  match c with
  | CmdStart => [BusStart]
  | CmdWriteByte b en => [BusWrite b en]
  | CmdWrite bs en => map (fun b => BusWrite b en) bs
  | CmdRead _ n ack => map BusRead (read_byte_acks n ack)
  | CmdStop => [BusStop]
  end.

Definition bus_sequence (cmd : i2c_cmd_handle_t) : list bus_item :=
  flat_map cmd_items cmd.

(** *** Memory *)

Definition memory := Z -> Z.

Definition mem_set (m : memory) (a : Z) (b : Z) : memory :=
  fun x => if x =? a then b else m x.

Fixpoint store_bytes (m : memory) (a : Z) (bs : list Z) : memory :=
  match bs with
  | [] => m
  | b :: rest => store_bytes (mem_set m a b) (a + 1) rest
  end.

Fixpoint load_bytes (m : memory) (a : Z) (n : nat) : list Z :=
  match n with
  | O => []
  | S k => m a :: load_bytes m (a + 1) k
  end.

(** The bytes received during a transfer land in the buffers of the read
    primitives of the link, in queue order; nothing else of the memory is
    written by a transfer. *)
Fixpoint deliver (m : memory) (cmd : i2c_cmd_handle_t) (rx : list Z) : memory :=
  match cmd with
  | [] => m
  | CmdRead a n _ :: rest =>
      deliver (store_bytes m a (firstn n rx)) rest (skipn n rx)
  | _ :: rest => deliver m rest rx
  end.

(** ** The external collaborators *)

(** The vendor driver together with the bus and the device behind it: a
    state and the answer to each of the three calls the program makes. *)
Record i2c_driver := {
  drv_state : Type;
  install_resp : drv_state -> i2c_port_t -> i2c_mode_t -> esp_err_t * drv_state;
  param_config_resp :
    drv_state -> i2c_port_t -> i2c_config_t -> esp_err_t * drv_state;
  cmd_begin_resp :
    drv_state -> i2c_port_t -> i2c_cmd_handle_t -> Z ->
    esp_err_t * list Z * drv_state
}.

Inductive log_level := LogError | LogInfo.

Inductive event :=
| EvDriverInstall (port : i2c_port_t) (m : i2c_mode_t)
| EvParamConfig (port : i2c_port_t) (conf : i2c_config_t)
| EvCmdBegin (port : i2c_port_t) (cmd : i2c_cmd_handle_t) (ticks : Z)
| EvDelay (ticks : Z)
| EvLog (lvl : log_level) (tag : string) (fmt : string) (args : list Z)
| EvAbort.

Inductive outcome (A : Type) :=
| Done (a : A)
| Aborted.
Arguments Done {A} a.
Arguments Aborted {A}.

(** *** Log lines *)

Definition nl : string := String (ascii_of_nat 10) EmptyString.

Definition stars_fmt : string := ("*******************" ++ nl)%string.
Definition sensor_data_fmt : string := ("sensor_data: " ++ nl)%string.
Definition no_ack_fmt : string :=
  ("No ack, sensor not connected...skip..." ++ nl)%string.

Definition decimal (z : Z) : string := NilZero.string_of_int (Z.to_int z).

(** The log macros of [esp_log.h] format their arguments as [printf] does.
    The fragment used here: [%d] prints the next argument in decimal, [%%]
    prints a percent sign, any other character is copied; arguments that no
    conversion asks for are dropped. *)
Fixpoint render (fmt : string) (args : list Z) : string :=
  match fmt with
  | EmptyString => EmptyString
  | String "%"%char (String "d"%char rest) =>
      match args with
      | a :: args' => (decimal a ++ render rest args')%string
      | [] => render rest []
      end
  | String "%"%char (String "%"%char rest) => String "%"%char (render rest args)
  | String c rest => String c (render rest args)
  end.

Declare Scope prog_scope.
Delimit Scope prog_scope with prog.

Section Program.

Variable drv : i2c_driver.

(** The tick period in milliseconds, a constant of the scheduler's port
    layer that the sources only use. *)
Variable portTICK_RATE_MS : Z.

Record world := {
  bus : drv_state drv;
  mem : memory;
  trace : list event
}.

Definition emit (e : event) (w : world) : world :=
  {| bus := bus w; mem := mem w; trace := trace w ++ [e] |}.

(** State passing with abort. *)
Definition M (A : Type) := world -> outcome A * world.

Definition ret {A} (a : A) : M A := fun w => (Done a, w).

Definition bind {A B} (m : M A) (k : A -> M B) : M B :=
  fun w =>
    match m w with
    | (Done a, w') => k a w'
    | (Aborted, w') => (Aborted, w')
    end.

Definition abort {A} : M A := fun w => (Aborted, emit EvAbort w).

Notation "x <- m ;; k" := (bind m (fun x => k))
  (at level 100, m at next level, right associativity) : prog_scope.
Notation "m ;; k" := (bind m (fun _ => k))
  (at level 100, right associativity) : prog_scope.
Local Open Scope prog_scope.

(** *** Calls that leave the program *)

Definition i2c_driver_install (port : i2c_port_t) (m : i2c_mode_t) : M esp_err_t :=
  fun w =>
    let '(st, b) := install_resp drv (bus w) port m in
    (Done st,
     {| bus := b; mem := mem w; trace := trace w ++ [EvDriverInstall port m] |}).

Definition i2c_param_config (port : i2c_port_t) (conf : i2c_config_t)
  : M esp_err_t :=
  fun w =>
    let '(st, b) := param_config_resp drv (bus w) port conf in
    (Done st,
     {| bus := b; mem := mem w; trace := trace w ++ [EvParamConfig port conf] |}).

Definition i2c_master_cmd_begin (port : i2c_port_t) (cmd : i2c_cmd_handle_t)
  (ticks : Z) : M esp_err_t :=
  fun w =>
    let '(st, rx, b) := cmd_begin_resp drv (bus w) port cmd ticks in
    (Done st,
     {| bus := b; mem := deliver (mem w) cmd rx;
        trace := trace w ++ [EvCmdBegin port cmd ticks] |}).

Definition vTaskDelay (ticks : Z) : M unit :=
  fun w => (Done tt, emit (EvDelay ticks) w).

Definition ESP_LOGI (tag fmt : string) (args : list Z) : M unit :=
  fun w => (Done tt, emit (EvLog LogInfo tag fmt args) w).

Definition ESP_LOGE (tag fmt : string) (args : list Z) : M unit :=
  fun w => (Done tt, emit (EvLog LogError tag fmt args) w).

(** Modelled from the spec: the macro [ESP_ERROR_CHECK] of [esp_err.h] is not
    part of the sources.  A non-success status is fatal: the process
    aborts. *)
Definition ESP_ERROR_CHECK (x : M esp_err_t) : M unit :=
  rc <- x ;;
  if rc =? ESP_OK then ret tt else abort.

(** *** Bus Initializer *)

Definition i2c_example_master_init : M esp_err_t :=
  let i2c_master_port := I2C_EXAMPLE_MASTER_NUM in
  let conf := {| mode := I2C_MODE_MASTER;
                 sda_io_num := I2C_EXAMPLE_MASTER_SDA_IO;
                 sda_pullup_en := 1;
                 scl_io_num := I2C_EXAMPLE_MASTER_SCL_IO;
                 scl_pullup_en := 1;
                 clk_stretch_tick := 300 |} in
  ESP_ERROR_CHECK (i2c_driver_install i2c_master_port (mode conf)) ;;
  ESP_ERROR_CHECK (i2c_param_config i2c_master_port conf) ;;
  ret ESP_OK.

(** *** Register Transaction Layer *)

(** [data] is the content of the [data_len] bytes the caller's pointer
    designates. *)
Definition i2c_example_master_ADS1115_write (i2c_num : i2c_port_t)
  (reg_address : Z) (data : list Z) : M esp_err_t :=
  let cmd := i2c_cmd_link_create in
  let cmd := i2c_master_start cmd in
  let cmd := i2c_master_write_byte cmd
               (Z.lor (Z.shiftl ADS1115_SENSOR_ADDR_GND 1) WRITE_BIT)
               ACK_CHECK_EN in
  let cmd := i2c_master_write_byte cmd reg_address ACK_CHECK_EN in
  let cmd := i2c_master_write cmd data ACK_CHECK_EN in
  let cmd := i2c_master_stop cmd in
  r <- i2c_master_cmd_begin i2c_num cmd (1000 / portTICK_RATE_MS) ;;
  ret r.

(** [data] is the address of the caller's buffer. *)
Definition i2c_example_master_ADS1115_read (i2c_num : i2c_port_t)
  (reg_address : Z) (data : Z) (data_len : nat) : M esp_err_t :=
  let cmd := i2c_cmd_link_create in
  let cmd := i2c_master_start cmd in
  let cmd := i2c_master_write_byte cmd
               (Z.lor (Z.shiftl ADS1115_SENSOR_ADDR_GND 1) WRITE_BIT)
               ACK_CHECK_EN in
  let cmd := i2c_master_write_byte cmd reg_address ACK_CHECK_EN in
  let cmd := i2c_master_stop cmd in
  r <- i2c_master_cmd_begin i2c_num cmd (1000 / portTICK_RATE_MS) ;;
  if negb (r =? ESP_OK) then ret r
  else
    let cmd := i2c_cmd_link_create in
    let cmd := i2c_master_start cmd in
    let cmd := i2c_master_write_byte cmd
                 (Z.lor (Z.shiftl ADS1115_SENSOR_ADDR_GND 1) READ_BIT)
                 ACK_CHECK_EN in
    let cmd := i2c_master_read cmd data data_len LAST_NACK_VAL in
    let cmd := i2c_master_stop cmd in
    r <- i2c_master_cmd_begin i2c_num cmd (1000 / portTICK_RATE_MS) ;;
    ret r.

(** [cmd_data] is the value of the local of that name, which is sent
    without having been assigned. *)
Definition i2c_example_master_ADS1115_init (cmd_data : Z) (i2c_num : i2c_port_t)
  : M esp_err_t :=
  vTaskDelay (100 / portTICK_RATE_MS) ;;
  i2c_example_master_init ;;
  ESP_ERROR_CHECK (i2c_example_master_ADS1115_write i2c_num CONFIG_REG [cmd_data]) ;;
  ret ESP_OK.

(** *** Polling Task *)

(** One pass through the body of the [while (1)] loop.  [sensor_data] is the
    value of the local of that name: no statement assigns it, it is handed
    to the Read by value, where the buffer address is expected, and its
    16-bit signed reading is the argument of the second log call.  The call
    supplies no length; [data_len] stands for it. *)
Definition poll_once (sensor_data : Z) (data_len : nat) : M unit :=
  r <- i2c_example_master_ADS1115_read I2C_EXAMPLE_MASTER_NUM CONVERSION_REG
         (uint16 sensor_data) data_len ;;
  (if r =? ESP_OK then
     ESP_LOGI TAG stars_fmt [] ;;
     ESP_LOGI TAG sensor_data_fmt [int16 sensor_data]
   else
     ESP_LOGE TAG no_ack_fmt []) ;;
  vTaskDelay (100 / portTICK_RATE_MS).

(** The first [n] passes of the loop, which has no exit. *)
Fixpoint poll_loop (n : nat) (sensor_data : Z) (data_len : nat) : M unit :=
  match n with
  | O => ret tt
  | S k => poll_once sensor_data data_len ;; poll_loop k sensor_data data_len
  end.

(** The task, observed up to [n] passes of its loop; the driver release that
    follows the loop in the text is never reached. *)
Definition i2c_task_example (cmd_data sensor_data : Z) (data_len : nat) (n : nat)
  : M unit :=
  i2c_example_master_ADS1115_init cmd_data I2C_EXAMPLE_MASTER_NUM ;;
  poll_loop n sensor_data data_len.

End Program.

Arguments bus {drv} w.
Arguments mem {drv} w.
Arguments trace {drv} w.
Arguments Build_world {drv}.

(** ** Observing a trace *)

Definition delays (t : list event) : list Z :=
  flat_map (fun e => match e with EvDelay k => [k] | _ => [] end) t.

Definition submitted (t : list event) : list i2c_cmd_handle_t :=
  flat_map (fun e => match e with EvCmdBegin _ c _ => [c] | _ => [] end) t.

Definition log_lines (t : list event) : list (log_level * string) :=
  flat_map (fun e => match e with
                     | EvLog l _ fmt args => [(l, render fmt args)]
                     | _ => []
                     end) t.

Definition is_read_cmd (c : i2c_cmd) : bool :=
  match c with CmdRead _ _ _ => true | _ => false end.

(** A transaction is framed when its first primitive is a start condition
    and its last a stop condition. *)
Definition framed (cmd : i2c_cmd_handle_t) : Prop :=
  hd_error cmd = Some CmdStart /\ last cmd CmdStart = CmdStop.

Definition is_install (e : event) : bool :=
  match e with EvDriverInstall _ _ => true | _ => false end.

Definition is_config (e : event) : bool :=
  match e with EvParamConfig _ _ => true | _ => false end.

(** Some configuration call comes before some installation call. *)
Fixpoint config_before_install (t : list event) : bool :=
  match t with
  | [] => false
  | e :: rest =>
      (is_config e && existsb is_install rest) || config_before_install rest
  end.

(** Some installation call comes before some configuration call. *)
Fixpoint install_before_config (t : list event) : bool :=
  match t with
  | [] => false
  | e :: rest =>
      (is_install e && existsb is_config rest) || install_before_config rest
  end.

(** ** Simulated drivers *)

(** A driver whose install and configuration statuses are fixed and whose
    [k]-th transfer answers [xfer k]. *)
Definition scripted_driver (inst conf : esp_err_t)
  (xfer : nat -> esp_err_t * list Z) : i2c_driver :=
  {| drv_state := nat;
     install_resp := fun k _ _ => (inst, k);
     param_config_resp := fun k _ _ => (conf, k);
     cmd_begin_resp := fun k _ _ _ => (xfer k, S k) |}.

(** Always success, and the bytes 0x01 0x00 on every transfer. *)
Definition sim_driver : i2c_driver :=
  scripted_driver ESP_OK ESP_OK (fun _ => (ESP_OK, [0x01; 0x00])).

(** No device acknowledges. *)
Definition absent_sensor : i2c_driver :=
  scripted_driver ESP_OK ESP_OK (fun _ => (ESP_FAIL, [])).

(** The driver refuses the installation. *)
Definition no_install : i2c_driver :=
  scripted_driver ESP_FAIL ESP_OK (fun _ => (ESP_OK, [])).

Definition boot_world (drv : i2c_driver) (b : drv_state drv) : world drv :=
  {| bus := b; mem := fun _ => 0; trace := [] |}.

(** ** The driver's answers along a run *)

Section Responses.

Variable drv : i2c_driver.
Variable portTICK_RATE_MS : Z.

(** The status the driver gives to the pointer-set transaction of a Read
    started in [w]. *)
Definition pointer_set_status (w : world drv) (i2c_num : i2c_port_t)
  (reg_address : Z) : esp_err_t :=
  fst (fst (cmd_begin_resp drv (bus w) i2c_num
              [CmdStart; CmdWriteByte 0x90 true;
               CmdWriteByte (uint8 reg_address) true; CmdStop]
              (1000 / portTICK_RATE_MS))).

Definition install_status (w : world drv) : esp_err_t :=
  fst (install_resp drv (bus w) I2C_EXAMPLE_MASTER_NUM I2C_MODE_MASTER).

Definition installed_bus (w : world drv) : drv_state drv :=
  snd (install_resp drv (bus w) I2C_EXAMPLE_MASTER_NUM I2C_MODE_MASTER).

Definition master_conf : i2c_config_t :=
  {| mode := I2C_MODE_MASTER;
     sda_io_num := 0; sda_pullup_en := 1;
     scl_io_num := 2; scl_pullup_en := 1;
     clk_stretch_tick := 300 |}.

Definition config_status (w : world drv) : esp_err_t :=
  fst (param_config_resp drv (installed_bus w) I2C_EXAMPLE_MASTER_NUM master_conf).

Definition configured_bus (w : world drv) : drv_state drv :=
  snd (param_config_resp drv (installed_bus w) I2C_EXAMPLE_MASTER_NUM master_conf).

(** The status the driver gives to the configuration write of the boot. *)
Definition boot_write_status (w : world drv) (cmd_data : Z) : esp_err_t :=
  fst (fst (cmd_begin_resp drv (configured_bus w) I2C_EXAMPLE_MASTER_NUM
              [CmdStart; CmdWriteByte 0x90 true; CmdWriteByte 0x01 true;
               CmdWrite [cmd_data] true; CmdStop]
              (1000 / portTICK_RATE_MS))).

End Responses.

Arguments master_conf : simpl never.

(** ** What the task may put in its trace *)

Definition is_abort (e : event) : bool :=
  match e with EvAbort => true | _ => false end.

(** The events a pass of the polling loop can produce. *)
Definition is_loop_event (e : event) : bool :=
  match e with
  | EvCmdBegin _ _ _ | EvLog _ _ _ _ | EvDelay _ => true
  | _ => false
  end.

(** A framed link whose first byte, acknowledgment-checked, carries the
    device address [ADS1115_SENSOR_ADDR_GND] in its upper seven bits. *)
Definition link_ok (cmd : i2c_cmd_handle_t) : Prop :=
  framed cmd /\
  exists b rest,
    cmd = CmdStart :: CmdWriteByte b true :: rest /\
    Z.shiftr b 1 = ADS1115_SENSOR_ADDR_GND.

Definition task_event_ok (tick_ms : Z) (e : event) : Prop :=
  match e with
  | EvDriverInstall port _ => port = I2C_EXAMPLE_MASTER_NUM
  | EvParamConfig port conf => port = I2C_EXAMPLE_MASTER_NUM /\ conf = master_conf
  | EvCmdBegin port cmd ticks =>
      port = I2C_EXAMPLE_MASTER_NUM /\ ticks = 1000 / tick_ms /\ link_ok cmd
  | EvDelay ticks => ticks = 100 / tick_ms
  | EvLog _ tag _ _ => tag = TAG
  | EvAbort => True
  end.

(** The device answers the first transfer and none after it. *)
Definition unplugged_sensor : i2c_driver :=
  scripted_driver ESP_OK ESP_OK
    (fun k => match k with O => (ESP_OK, []) | S _ => (ESP_FAIL, []) end).

(** The events of one pass of the polling loop, for the tick period, the
    value of [sensor_data] and the length of the pass: the pointer-set link
    of the conversion register, then either one error line (the pointer-set
    status was not success), or the data link and one error line (the data
    status was not success), or the data link and the two informational
    lines; the fixed delay closes the pass. *)
Definition pass_block (tick_ms sensor_data : Z) (data_len : nat)
  (evs : list event) : Prop :=
  let ptr := EvCmdBegin I2C_EXAMPLE_MASTER_NUM
               [CmdStart; CmdWriteByte 0x90 true; CmdWriteByte 0x00 true;
                CmdStop] (1000 / tick_ms) in
  let dat := EvCmdBegin I2C_EXAMPLE_MASTER_NUM
               [CmdStart; CmdWriteByte 0x91 true;
                CmdRead (uint16 sensor_data) data_len LAST_NACK_VAL; CmdStop]
               (1000 / tick_ms) in
  let err := EvLog LogError TAG no_ack_fmt [] in
  let slp := EvDelay (100 / tick_ms) in
  evs = [ptr; err; slp] \/
  evs = [ptr; dat; err; slp] \/
  evs = [ptr; dat; EvLog LogInfo TAG stars_fmt [];
         EvLog LogInfo TAG sensor_data_fmt [int16 sensor_data]; slp].

(** [evs] is the events of [n] passes, one after the other. *)
Fixpoint pass_blocks (tick_ms sensor_data : Z) (data_len : nat) (n : nat)
  (evs : list event) : Prop :=
  match n with
  | O => evs = []
  | S k =>
      exists b rest,
        evs = b ++ rest /\
        pass_block tick_ms sensor_data data_len b /\
        pass_blocks tick_ms sensor_data data_len k rest
  end.

(** The address [x] lies outside the [n] bytes starting at [a]. *)
Definition outside (a : Z) (n : nat) (x : Z) : Prop :=
  x < a \/ a + Z.of_nat n <= x.

(** * Properties *)

Section Properties.

Variable drv : i2c_driver.
Variable portTICK_RATE_MS : Z.

Local Abbreviation master_init := (i2c_example_master_init drv).
Local Abbreviation ads_write := (i2c_example_master_ADS1115_write drv portTICK_RATE_MS).
Local Abbreviation ads_read := (i2c_example_master_ADS1115_read drv portTICK_RATE_MS).
Local Abbreviation ads_init := (i2c_example_master_ADS1115_init drv portTICK_RATE_MS).
Local Abbreviation cmd_begin := (i2c_master_cmd_begin drv).
Local Abbreviation ticks_1000ms := (1000 / portTICK_RATE_MS).
Local Abbreviation ticks_100ms := (100 / portTICK_RATE_MS).
Local Abbreviation st_pointer_set := (pointer_set_status drv portTICK_RATE_MS).
Local Abbreviation st_install := (install_status drv).
Local Abbreviation bus_installed := (installed_bus drv).
Local Abbreviation st_config := (config_status drv).
Local Abbreviation bus_configured := (configured_bus drv).
Local Abbreviation st_boot_write := (boot_write_status drv portTICK_RATE_MS).
Local Abbreviation loop_pass := (poll_once drv portTICK_RATE_MS).
Local Abbreviation loop := (poll_loop drv portTICK_RATE_MS).
Local Abbreviation task := (i2c_task_example drv portTICK_RATE_MS).

(** The three links the layer builds, as lists of primitives. *)

Lemma write_address_byte :
  uint8 (Z.lor (Z.shiftl ADS1115_SENSOR_ADDR_GND 1) WRITE_BIT) = 0x90.
Proof. reflexivity. Qed.

Lemma read_address_byte :
  uint8 (Z.lor (Z.shiftl ADS1115_SENSOR_ADDR_GND 1) READ_BIT) = 0x91.
Proof. reflexivity. Qed.

Lemma cmd_begin_run (port : i2c_port_t) (cmd : i2c_cmd_handle_t) (ticks : Z)
  (w : world drv) :
  cmd_begin port cmd ticks w =
  (Done (fst (fst (cmd_begin_resp drv (bus w) port cmd ticks))),
   {| bus := snd (cmd_begin_resp drv (bus w) port cmd ticks);
      mem := deliver (mem w) cmd
               (snd (fst (cmd_begin_resp drv (bus w) port cmd ticks)));
      trace := trace w ++ [EvCmdBegin port cmd ticks] |}).
Proof.
  unfold i2c_master_cmd_begin.
  destruct (cmd_begin_resp drv (bus w) port cmd ticks) as [[st rx] b].
  reflexivity.
Qed.

Lemma write_run (i2c_num : i2c_port_t) (reg_address : Z) (data : list Z)
  (w : world drv) :
  ads_write i2c_num reg_address data w =
  cmd_begin i2c_num
    [CmdStart; CmdWriteByte 0x90 true; CmdWriteByte (uint8 reg_address) true;
     CmdWrite data true; CmdStop] ticks_1000ms w.
Proof.
  unfold i2c_example_master_ADS1115_write, bind, ret.
  unfold i2c_master_stop, i2c_master_write, i2c_master_write_byte,
    i2c_master_start, i2c_cmd_link_create.
  rewrite write_address_byte. cbn [app].
  change (c_bool ACK_CHECK_EN) with true.
  rewrite cmd_begin_run. reflexivity.
Qed.

Lemma read_run (i2c_num : i2c_port_t) (reg_address data : Z) (data_len : nat)
  (w : world drv) :
  ads_read i2c_num reg_address data data_len w =
  match cmd_begin i2c_num
          [CmdStart; CmdWriteByte 0x90 true; CmdWriteByte (uint8 reg_address) true;
           CmdStop] ticks_1000ms w with
  | (Done r, w1) =>
      if r =? ESP_OK then
        cmd_begin i2c_num
          [CmdStart; CmdWriteByte 0x91 true;
           CmdRead data data_len LAST_NACK_VAL; CmdStop] ticks_1000ms w1
      else (Done r, w1)
  | (Aborted, w1) => (Aborted, w1)
  end.
Proof.
  unfold i2c_example_master_ADS1115_read, bind, ret.
  unfold i2c_master_stop, i2c_master_read, i2c_master_write_byte,
    i2c_master_start, i2c_cmd_link_create.
  rewrite write_address_byte, read_address_byte. cbn [app].
  change (c_bool ACK_CHECK_EN) with true.
  rewrite cmd_begin_run.
  destruct (_ =? ESP_OK); cbn [negb]; [ | reflexivity ].
  rewrite cmd_begin_run. reflexivity.
Qed.

Lemma status_eqb_false (r : esp_err_t) : r <> ESP_OK -> (r =? ESP_OK) = false.
Proof. intro H. apply Z.eqb_neq. exact H. Qed.

(** C1: for every register address and buffer length, the first thing a Read
    submits is the pointer-set transaction (start, address byte with the
    write direction, register byte, stop), the data transaction can only
    follow it, and when the pointer-set status is not success nothing else is
    submitted and that status is what Read returns. *)
Theorem read_pointer_set_first (w : world drv) (i2c_num : i2c_port_t)
  (reg_address data : Z) (data_len : nat) :
  let pointer_set :=
    [CmdStart; CmdWriteByte (Z.lor (Z.shiftl 0x48 1) 0) true;
     CmdWriteByte (uint8 reg_address) true; CmdStop] in
  let data_phase :=
    [CmdStart; CmdWriteByte (Z.lor (Z.shiftl 0x48 1) 1) true;
     CmdRead data data_len LAST_NACK_VAL; CmdStop] in
  let st1 := st_pointer_set w i2c_num reg_address in
  let out := ads_read i2c_num reg_address data data_len w in
  (exists rest,
      trace (snd out) =
        trace w ++ EvCmdBegin i2c_num pointer_set ticks_1000ms :: rest /\
      (rest = [] \/ rest = [EvCmdBegin i2c_num data_phase ticks_1000ms]) /\
      (st1 = ESP_OK -> rest = [EvCmdBegin i2c_num data_phase ticks_1000ms])) /\
  (st1 <> ESP_OK ->
   fst out = Done st1 /\
   trace (snd out) = trace w ++ [EvCmdBegin i2c_num pointer_set ticks_1000ms]).
Proof.
  cbv zeta. unfold st_pointer_set.
  change (Z.lor (Z.shiftl 72 1) 0) with 0x90.
  change (Z.lor (Z.shiftl 72 1) 1) with 0x91.
  rewrite read_run, cmd_begin_run.
  set (resp := cmd_begin_resp drv (bus w) i2c_num _ ticks_1000ms).
  destruct (Z.eqb_spec (fst (fst resp)) ESP_OK) as [Hok | Hko].
  - rewrite cmd_begin_run. cbn [fst snd trace]. split.
    + eexists. split; [ rewrite <- app_assoc; reflexivity | ].
      split; [ right; reflexivity | intros _; reflexivity ].
    + intros Habs. contradiction.
  - cbn [fst snd trace]. split.
    + exists []. split; [ reflexivity | ].
      split; [ left; reflexivity | intros Habs; contradiction ].
    + intros _. split; reflexivity.
Qed.

(** C2: for the four register pointers and every data array, Write submits
    one transaction whose sequence on the bus is start, the byte 0x48<<1|0,
    the register byte, the data bytes and stop, every byte being
    acknowledgment-checked, with a timeout of 1000 / portTICK_RATE_MS ticks,
    that is 1000 ms when the tick period divides 1000. *)
Theorem write_byte_sequence (w : world drv) (i2c_num : i2c_port_t)
  (reg_address : Z) (data : list Z) :
  In reg_address [0x00; 0x01; 0x02; 0x03] ->
  0 < portTICK_RATE_MS ->
  1000 mod portTICK_RATE_MS = 0 ->
  exists cmd ticks,
    trace (snd (ads_write i2c_num reg_address data w)) =
      trace w ++ [EvCmdBegin i2c_num cmd ticks] /\
    bus_sequence cmd =
      BusStart :: BusWrite (Z.lor (Z.shiftl 0x48 1) 0) true ::
      BusWrite reg_address true ::
      map (fun b => BusWrite b true) data ++ [BusStop] /\
    ticks = ticks_1000ms /\
    ticks * portTICK_RATE_MS = 1000.
Proof.
  intros Hreg Hpos Hdiv.
  rewrite write_run, cmd_begin_run. cbn [snd trace].
  do 2 eexists. split; [ reflexivity | ].
  split; [ | split; [ reflexivity | ] ].
  - unfold bus_sequence. cbn [flat_map cmd_items app].
    assert (Hr : uint8 reg_address = reg_address).
    { unfold uint8. apply Z.mod_small.
      cbn [In] in Hreg.
      destruct Hreg as [<- | [<- | [<- | [<- | []]]]]; lia. }
    rewrite Hr. reflexivity.
  - rewrite Z.mul_comm. symmetry. apply Z.div_exact; [ lia | exact Hdiv ].
Qed.

(** C3: a Read of N > 1 bytes whose pointer-set transaction succeeds submits a
    data transaction that acknowledges the first N-1 bytes with the standard
    value and the N-th with the terminal one; no single value acknowledges
    all N bytes. *)
Theorem read_last_byte_terminal_ack (w : world drv) (i2c_num : i2c_port_t)
  (reg_address data : Z) (N : nat) :
  (1 < N)%nat ->
  st_pointer_set w i2c_num reg_address = ESP_OK ->
  exists ev cmd acks,
    trace (snd (ads_read i2c_num reg_address data N w)) =
      trace w ++ [ev; EvCmdBegin i2c_num cmd ticks_1000ms] /\
    cmd = [CmdStart; CmdWriteByte 0x91 true; CmdRead data N LAST_NACK_VAL;
           CmdStop] /\
    bus_sequence cmd =
      [BusStart; BusWrite 0x91 true] ++ map BusRead acks ++ [BusStop] /\
    acks = repeat AckStandard (N - 1) ++ [AckTerminal] /\
    List.length acks = N /\
    forall a, acks <> repeat a N.
Proof.
  intros HN Hok. unfold st_pointer_set in Hok.
  rewrite read_run, cmd_begin_run, Hok. cbn [Z.eqb ESP_OK].
  rewrite cmd_begin_run. cbn [snd trace].
  destruct N as [ | k ]; [ lia | ].
  destruct k as [ | k ]; [ lia | ].
  do 3 eexists. split; [ rewrite <- app_assoc; reflexivity | ].
  split; [ reflexivity | ].
  split; [ | split; [ reflexivity | split ] ].
  - unfold bus_sequence. cbn [flat_map cmd_items app read_byte_acks].
    change (LAST_NACK_VAL =? LAST_NACK_VAL) with true. cbn iota.
    replace (S (S k) - 1)%nat with (S k) by lia.
    reflexivity.
  - rewrite length_app, repeat_length. cbn [List.length]. lia.
  - intros a Hrep. replace (S (S k) - 1)%nat with (S k) in Hrep by lia.
    destruct a.
    + assert (Hin : In AckTerminal (repeat AckStandard (S (S k)))).
      { rewrite <- Hrep. apply in_or_app. right. left. reflexivity. }
      apply repeat_spec in Hin. discriminate.
    + cbn [repeat app] in Hrep. discriminate.
Qed.

(** C8: the transaction of a Write and each transaction of a Read, at least
    one in both cases, begins with a start condition and ends with a stop
    condition. *)
Theorem transactions_framed (w : world drv) (i2c_num : i2c_port_t)
  (reg_address : Z) (wdata : list Z) (rbuf : Z) (data_len : nat) :
  (exists evs,
      trace (snd (ads_write i2c_num reg_address wdata w)) = trace w ++ evs /\
      (0 < List.length (submitted evs))%nat /\
      Forall framed (submitted evs)) /\
  (exists evs,
      trace (snd (ads_read i2c_num reg_address rbuf data_len w)) =
        trace w ++ evs /\
      (0 < List.length (submitted evs))%nat /\
      Forall framed (submitted evs)).
Proof.
  split.
  - rewrite write_run, cmd_begin_run. cbn [snd trace].
    eexists. split; [ reflexivity | ].
    cbn [submitted flat_map app List.length]. split; [ lia | ].
    constructor; [ split; reflexivity | constructor ].
  - rewrite read_run, cmd_begin_run.
    destruct (_ =? ESP_OK).
    + rewrite cmd_begin_run. cbn [snd trace].
      eexists. split; [ rewrite <- app_assoc; reflexivity | ].
      cbn [submitted flat_map app List.length]. split; [ lia | ].
      repeat constructor.
    + cbn [snd trace].
      eexists. split; [ reflexivity | ].
      cbn [submitted flat_map app List.length]. split; [ lia | ].
      repeat constructor.
Qed.

(** C10: when the pointer-set transaction of a Read does not succeed, no
    submitted link holds a read primitive and the memory, hence the caller's
    buffer, is what it was before the call. *)
Theorem read_failure_leaves_buffer (w : world drv) (i2c_num : i2c_port_t)
  (reg_address data : Z) (data_len : nat) :
  st_pointer_set w i2c_num reg_address <> ESP_OK ->
  let out := ads_read i2c_num reg_address data data_len w in
  mem (snd out) = mem w /\
  load_bytes (mem (snd out)) data data_len = load_bytes (mem w) data data_len /\
  exists evs,
    trace (snd out) = trace w ++ evs /\
    forallb (fun cmd => negb (existsb is_read_cmd cmd)) (submitted evs) = true.
Proof.
  intros Hko. cbv zeta. unfold st_pointer_set in Hko.
  rewrite read_run, cmd_begin_run, (status_eqb_false _ Hko).
  cbn [snd mem trace deliver].
  split; [ reflexivity | split; [ reflexivity | ] ].
  eexists. split; reflexivity.
Qed.

(** *** Boot *)

Lemma master_init_run (w : world drv) :
  master_init w =
  let w1 := {| bus := bus_installed w; mem := mem w;
               trace := trace w ++
                 [EvDriverInstall I2C_EXAMPLE_MASTER_NUM I2C_MODE_MASTER] |} in
  if st_install w =? ESP_OK then
    let w2 := {| bus := bus_configured w; mem := mem w;
                 trace := trace w1 ++
                   [EvParamConfig I2C_EXAMPLE_MASTER_NUM master_conf] |} in
    if st_config w =? ESP_OK then (Done ESP_OK, w2)
    else (Aborted, emit drv EvAbort w2)
  else (Aborted, emit drv EvAbort w1).
Proof.
  unfold i2c_example_master_init, ESP_ERROR_CHECK, bind, ret, abort,
    i2c_driver_install, i2c_param_config.
  unfold st_install, st_config, bus_configured, bus_installed.
  cbn [mode].
  destruct (install_resp drv (bus w) I2C_EXAMPLE_MASTER_NUM I2C_MODE_MASTER)
    as [sti b1].
  cbn [fst snd]. destruct (sti =? ESP_OK); [ | reflexivity ].
  cbn [bus mem trace]. fold master_conf.
  change {| mode := I2C_MODE_MASTER;
            sda_io_num := I2C_EXAMPLE_MASTER_SDA_IO; sda_pullup_en := 1;
            scl_io_num := I2C_EXAMPLE_MASTER_SCL_IO; scl_pullup_en := 1;
            clk_stretch_tick := 300 |} with master_conf.
  destruct (param_config_resp drv b1 I2C_EXAMPLE_MASTER_NUM master_conf)
    as [stc b2].
  cbn [fst snd]. destruct (stc =? ESP_OK); reflexivity.
Qed.

(** C7, as the code has it: the Bus Initializer first installs the driver
    for the controller instance and only then, when the installation
    succeeded, applies the configuration (pin roles, pull-ups, clock-stretch
    budget) to that instance; no configuration call precedes the
    installation. *)
Theorem init_installs_then_configures (w : world drv) :
  let conf :=
    {| mode := I2C_MODE_MASTER;
       sda_io_num := 0; sda_pullup_en := 1;
       scl_io_num := 2; scl_pullup_en := 1;
       clk_stretch_tick := 300 |} in
  let out := master_init w in
  exists rest,
    trace (snd out) =
      trace w ++ EvDriverInstall I2C_NUM_0 I2C_MODE_MASTER :: rest /\
    config_before_install
      (EvDriverInstall I2C_NUM_0 I2C_MODE_MASTER :: rest) = false /\
    ((st_install w = ESP_OK /\ st_config w = ESP_OK /\
      fst out = Done ESP_OK /\ rest = [EvParamConfig I2C_NUM_0 conf]) \/
     (st_install w = ESP_OK /\ st_config w <> ESP_OK /\
      fst out = Aborted /\
      rest = [EvParamConfig I2C_NUM_0 conf; EvAbort]) \/
     (st_install w <> ESP_OK /\ fst out = Aborted /\ rest = [EvAbort])).
Proof.
  cbv zeta. rewrite master_init_run. cbv zeta.
  destruct (Z.eqb_spec (st_install w) ESP_OK) as [Hi | Hi].
  - destruct (Z.eqb_spec (st_config w) ESP_OK) as [Hc | Hc].
    + cbn [fst snd trace]. eexists.
      split; [ rewrite <- app_assoc; reflexivity | ].
      split; [ reflexivity | ].
      left. repeat split; assumption.
    + cbn [fst snd trace emit]. eexists.
      split; [ rewrite <- !app_assoc; reflexivity | ].
      split; [ reflexivity | ].
      right. left. repeat split; assumption.
  - cbn [fst snd trace emit]. eexists.
    split; [ rewrite <- !app_assoc; reflexivity | ].
    split; [ reflexivity | ].
    right. right. repeat split; assumption.
Qed.

Lemma ads_init_run (cmd_data : Z) (i2c_num : i2c_port_t) (w : world drv) :
  ads_init cmd_data i2c_num w =
  match master_init (emit drv (EvDelay ticks_100ms) w) with
  | (Done _, w1) =>
      match ads_write i2c_num CONFIG_REG [cmd_data] w1 with
      | (Done r, w2) =>
          if r =? ESP_OK then (Done ESP_OK, w2)
          else (Aborted, emit drv EvAbort w2)
      | (Aborted, w2) => (Aborted, w2)
      end
  | (Aborted, w1) => (Aborted, w1)
  end.
Proof.
  unfold i2c_example_master_ADS1115_init, ESP_ERROR_CHECK, bind, ret, abort,
    vTaskDelay.
  destruct (master_init _) as [[r1 | ] w1]; [ | reflexivity ].
  destruct (ads_write _ _ _ _) as [[r2 | ] w2]; [ | reflexivity ].
  destruct (r2 =? ESP_OK); reflexivity.
Qed.

Lemma task_run (cmd_data sensor_data : Z) (data_len n : nat) (w : world drv) :
  task cmd_data sensor_data data_len n w =
  match ads_init cmd_data I2C_EXAMPLE_MASTER_NUM w with
  | (Done _, w1) => loop n sensor_data data_len w1
  | (Aborted, w1) => (Aborted, w1)
  end.
Proof. reflexivity. Qed.

(** C4: when the driver answers the installation or the configuration of
    the boot with a status other than success, the Bus Initializer aborts and
    so does the task, whatever the number of loop passes observed: nothing is
    submitted to the bus, nothing is logged, and the last event is the
    abort. *)
Theorem boot_driver_failure_is_fatal (w : world drv) (cmd_data sensor_data : Z)
  (data_len n : nat) :
  st_install w <> ESP_OK \/ st_config w <> ESP_OK ->
  fst (master_init w) = Aborted /\
  let out := task cmd_data sensor_data data_len n w in
  fst out = Aborted /\
  exists evs,
    trace (snd out) = trace w ++ evs ++ [EvAbort] /\
    submitted evs = [] /\
    log_lines evs = [] /\
    delays evs = [ticks_100ms].
Proof.
  intros Hfail. split.
  - rewrite master_init_run. cbv zeta.
    destruct (Z.eqb_spec (st_install w) ESP_OK) as [Hi | Hi];
      [ | reflexivity ].
    destruct (Z.eqb_spec (st_config w) ESP_OK) as [Hc | Hc];
      [ | reflexivity ].
    destruct Hfail; contradiction.
  - cbv zeta. rewrite task_run, ads_init_run, master_init_run. cbv zeta.
    change (install_status drv (emit drv (EvDelay ticks_100ms) w))
      with (st_install w).
    change (config_status drv (emit drv (EvDelay ticks_100ms) w))
      with (st_config w).
    destruct (Z.eqb_spec (st_install w) ESP_OK) as [Hi | Hi].
    + destruct (Z.eqb_spec (st_config w) ESP_OK) as [Hc | Hc].
      * destruct Hfail; contradiction.
      * cbn [fst snd trace emit]. split; [ reflexivity | ].
        exists [EvDelay ticks_100ms;
                EvDriverInstall I2C_EXAMPLE_MASTER_NUM I2C_MODE_MASTER;
                EvParamConfig I2C_EXAMPLE_MASTER_NUM master_conf].
        split; [ rewrite <- !app_assoc; reflexivity | ].
        repeat split; reflexivity.
    + cbn [fst snd trace emit]. split; [ reflexivity | ].
      exists [EvDelay ticks_100ms;
              EvDriverInstall I2C_EXAMPLE_MASTER_NUM I2C_MODE_MASTER].
      split; [ rewrite <- !app_assoc; reflexivity | ].
      repeat split; reflexivity.
Qed.

(** *** The loop *)

Lemma read_returns (i2c_num : i2c_port_t) (reg_address data : Z)
  (data_len : nat) (w : world drv) :
  exists st w1 rest,
    ads_read i2c_num reg_address data data_len w = (Done st, w1) /\
    trace w1 =
      trace w ++
      EvCmdBegin i2c_num
        [CmdStart; CmdWriteByte 0x90 true; CmdWriteByte (uint8 reg_address) true;
         CmdStop] ticks_1000ms :: rest /\
    delays rest = [].
Proof.
  rewrite read_run, cmd_begin_run.
  destruct (_ =? ESP_OK).
  - rewrite cmd_begin_run. do 3 eexists.
    split; [ reflexivity | ]. cbn [trace].
    split; [ rewrite <- app_assoc; reflexivity | reflexivity ].
  - do 2 eexists. exists [].
    split; [ reflexivity | ]. split; reflexivity.
Qed.

Lemma poll_once_run (sensor_data : Z) (data_len : nat) (w w1 : world drv)
  (st : esp_err_t) :
  ads_read I2C_EXAMPLE_MASTER_NUM CONVERSION_REG (uint16 sensor_data) data_len w
    = (Done st, w1) ->
  loop_pass sensor_data data_len w =
  (Done tt,
   {| bus := bus w1; mem := mem w1;
      trace := trace w1 ++
        (if st =? ESP_OK
         then [EvLog LogInfo TAG stars_fmt [];
               EvLog LogInfo TAG sensor_data_fmt [int16 sensor_data]]
         else [EvLog LogError TAG no_ack_fmt []]) ++
        [EvDelay ticks_100ms] |}).
Proof.
  intros Hread.
  unfold poll_once, bind. rewrite Hread.
  unfold ESP_LOGI, ESP_LOGE, vTaskDelay, emit.
  destruct (st =? ESP_OK); cbn [bus mem trace];
    rewrite <- ?app_assoc; reflexivity.
Qed.

(** Every pass of the loop returns: nothing in it can abort. *)
Lemma poll_once_returns (sensor_data : Z) (data_len : nat) (w : world drv) :
  exists w' rest,
    loop_pass sensor_data data_len w = (Done tt, w') /\
    trace w' =
      trace w ++
      EvCmdBegin I2C_EXAMPLE_MASTER_NUM
        [CmdStart; CmdWriteByte 0x90 true; CmdWriteByte 0x00 true; CmdStop]
        ticks_1000ms :: rest /\
    delays rest = [ticks_100ms].
Proof.
  destruct (read_returns I2C_EXAMPLE_MASTER_NUM CONVERSION_REG
              (uint16 sensor_data) data_len w)
    as (st & w1 & rest & Hread & Htr & Hdel).
  rewrite (poll_once_run _ _ _ _ _ Hread).
  do 2 eexists. split; [ reflexivity | ].
  cbn [trace]. rewrite Htr. rewrite <- app_assoc. cbn [app].
  split; [ reflexivity | ].
  unfold delays in *. rewrite !flat_map_app, Hdel.
  destruct (st =? ESP_OK); reflexivity.
Qed.

Lemma poll_loop_runs (sensor_data : Z) (data_len : nat) (n : nat) :
  forall w : world drv,
  exists w' evs,
    loop n sensor_data data_len w = (Done tt, w') /\
    trace w' = trace w ++ evs /\
    delays evs = repeat ticks_100ms n /\
    (n = 0%nat \/
     exists rest,
       evs = EvCmdBegin I2C_EXAMPLE_MASTER_NUM
               [CmdStart; CmdWriteByte 0x90 true; CmdWriteByte 0x00 true;
                CmdStop] ticks_1000ms :: rest).
Proof.
  induction n as [ | k IH ]; intros w.
  - exists w, []. cbn [poll_loop ret repeat delays flat_map].
    rewrite app_nil_r. repeat split. left. reflexivity.
  - destruct (poll_once_returns sensor_data data_len w)
      as (w1 & rest & Hone & Htr1 & Hdel1).
    destruct (IH w1) as (w2 & evs & Hloop & Htr2 & Hdel2 & _).
    exists w2. eexists.
    cbn [poll_loop]. unfold bind. rewrite Hone.
    split; [ exact Hloop | ].
    rewrite Htr2, Htr1, <- app_assoc. cbn [app].
    split; [ reflexivity | ].
    split; [ | right; eexists; reflexivity ].
    change (EvCmdBegin I2C_EXAMPLE_MASTER_NUM
              [CmdStart; CmdWriteByte 144 true; CmdWriteByte 0 true; CmdStop]
              ticks_1000ms :: rest ++ evs)
      with ((EvCmdBegin I2C_EXAMPLE_MASTER_NUM
              [CmdStart; CmdWriteByte 144 true; CmdWriteByte 0 true; CmdStop]
              ticks_1000ms :: rest) ++ evs).
    unfold delays in *. rewrite flat_map_app. cbn [flat_map app].
    rewrite Hdel1, Hdel2. reflexivity.
Qed.

Lemma pass_is_block (sensor_data : Z) (data_len : nat) (w : world drv) :
  exists w' b,
    loop_pass sensor_data data_len w = (Done tt, w') /\
    trace w' = trace w ++ b /\
    pass_block portTICK_RATE_MS sensor_data data_len b /\
    delays b = [ticks_100ms].
Proof.
  pose proof (read_run I2C_EXAMPLE_MASTER_NUM CONVERSION_REG
                (uint16 sensor_data) data_len w) as Hread.
  rewrite cmd_begin_run in Hread. change (uint8 CONVERSION_REG) with 0 in Hread.
  match type of Hread with
  | context [ if ?c then _ else _ ] => destruct c eqn:E1
  end.
  - rewrite cmd_begin_run in Hread. cbn [bus mem trace] in Hread.
    rewrite (poll_once_run _ _ _ _ _ Hread).
    match goal with
    | |- context [ if ?c then _ else _ ] => destruct c
    end.
    + do 2 eexists. split; [ reflexivity | ].
      cbn [trace bus mem]. split; [ rewrite <- !app_assoc; reflexivity | ].
      split; [ right; right; reflexivity | reflexivity ].
    + do 2 eexists. split; [ reflexivity | ].
      cbn [trace bus mem]. split; [ rewrite <- !app_assoc; reflexivity | ].
      split; [ right; left; reflexivity | reflexivity ].
  - rewrite (poll_once_run _ _ _ _ _ Hread), E1.
    do 2 eexists. split; [ reflexivity | ].
    cbn [trace bus mem]. split; [ rewrite <- !app_assoc; reflexivity | ].
    split; [ left; reflexivity | reflexivity ].
Qed.

Lemma loop_is_blocks (sensor_data : Z) (data_len : nat) (n : nat) :
  forall w : world drv,
  exists w' evs,
    loop n sensor_data data_len w = (Done tt, w') /\
    trace w' = trace w ++ evs /\
    pass_blocks portTICK_RATE_MS sensor_data data_len n evs /\
    delays evs = repeat ticks_100ms n.
Proof.
  induction n as [ | k IH ]; intros w.
  - exists w, []. cbn [poll_loop ret pass_blocks repeat].
    rewrite app_nil_r. repeat split.
  - destruct (pass_is_block sensor_data data_len w)
      as (w1 & b & Hone & Htr1 & Hb & Hdel1).
    destruct (IH w1) as (w2 & evs & Hrun & Htr2 & Hblocks & Hdel2).
    exists w2, (b ++ evs).
    cbn [poll_loop]. unfold bind. rewrite Hone.
    split; [ exact Hrun | ].
    split; [ rewrite Htr2, Htr1, app_assoc; reflexivity | ].
    split.
    + cbn [pass_blocks]. exists b, evs. repeat split; assumption.
    + unfold delays in *. rewrite flat_map_app, Hdel1, Hdel2. reflexivity.
Qed.

(** C5: a pass of the loop whose Read returns a status other than success
    logs one error line, sleeps the fixed interval and returns, leaving the
    driver and the memory as the Read left them.  The loop then goes on as
    the loop started after that pass: for every [n] it completes [n] further
    passes without aborting, and each of them is a whole pass, made of the
    same pointer-set transaction, the data transaction when the pointer was
    set, one error line or the two informational lines, and the same
    interval of sleep; no pass is skipped or shortened however many came
    before. *)
Theorem poll_failure_continues (w w1 : world drv) (st : esp_err_t)
  (sensor_data : Z) (data_len : nat) :
  ads_read I2C_EXAMPLE_MASTER_NUM CONVERSION_REG (uint16 sensor_data) data_len w
    = (Done st, w1) ->
  st <> ESP_OK ->
  exists w2,
    loop_pass sensor_data data_len w = (Done tt, w2) /\
    trace w2 =
      trace w1 ++ [EvLog LogError TAG no_ack_fmt []; EvDelay ticks_100ms] /\
    bus w2 = bus w1 /\
    mem w2 = mem w1 /\
    forall n : nat,
    exists w3 evs,
      loop (S n) sensor_data data_len w = (Done tt, w3) /\
      loop n sensor_data data_len w2 = (Done tt, w3) /\
      trace w3 = trace w2 ++ evs /\
      pass_blocks portTICK_RATE_MS sensor_data data_len n evs /\
      delays evs = repeat ticks_100ms n /\
      (n = 0%nat \/
       exists rest,
         evs = EvCmdBegin I2C_EXAMPLE_MASTER_NUM
                 [CmdStart; CmdWriteByte 0x90 true; CmdWriteByte 0x00 true;
                  CmdStop] ticks_1000ms :: rest).
Proof.
  intros Hread Hko.
  pose proof (poll_once_run _ _ _ _ _ Hread) as Hone.
  rewrite (status_eqb_false _ Hko) in Hone.
  eexists. split; [ exact Hone | ].
  split; [ reflexivity | ].
  split; [ reflexivity | ].
  split; [ reflexivity | ].
  intros n.
  match type of Hone with _ = (_, ?x) => set (w2 := x) in * end.
  destruct (loop_is_blocks sensor_data data_len n w2)
    as (w3 & evs & Hloop & Htr & Hblocks & Hdel).
  exists w3, evs.
  cbn [poll_loop]. unfold bind. rewrite Hone.
  repeat split; try assumption.
  destruct n as [ | k ]; [ left; reflexivity | right ].
  cbn [pass_blocks] in Hblocks.
  destruct Hblocks as (b & rest & -> & Hb & _).
  destruct Hb as [-> | [-> | ->]]; eexists; reflexivity.
Qed.

(** C9: when installation and configuration succeed but the driver answers
    the one configuration write of the boot with a status other than
    success, the device initialisation aborts and so does the task right
    after that write; a pass of the polling loop, in contrast, returns
    whatever the driver answers. *)
Theorem boot_write_failure_is_fatal (w : world drv) (cmd_data sensor_data : Z)
  (data_len n : nat) :
  st_install w = ESP_OK ->
  st_config w = ESP_OK ->
  st_boot_write w cmd_data <> ESP_OK ->
  fst (ads_init cmd_data I2C_EXAMPLE_MASTER_NUM w) = Aborted /\
  fst (task cmd_data sensor_data data_len n w) = Aborted /\
  trace (snd (task cmd_data sensor_data data_len n w)) =
    trace w ++
    [EvDelay ticks_100ms;
     EvDriverInstall I2C_EXAMPLE_MASTER_NUM I2C_MODE_MASTER;
     EvParamConfig I2C_EXAMPLE_MASTER_NUM master_conf;
     EvCmdBegin I2C_EXAMPLE_MASTER_NUM
       [CmdStart; CmdWriteByte 0x90 true; CmdWriteByte 0x01 true;
        CmdWrite [cmd_data] true; CmdStop] ticks_1000ms;
     EvAbort] /\
  forall w' : world drv, fst (loop_pass sensor_data data_len w') = Done tt.
Proof.
  intros Hi Hc Hw.
  assert (Hinit :
    ads_init cmd_data I2C_EXAMPLE_MASTER_NUM w =
    (Aborted,
     {| bus := snd (cmd_begin_resp drv (bus_configured w) I2C_EXAMPLE_MASTER_NUM
                      [CmdStart; CmdWriteByte 0x90 true; CmdWriteByte 0x01 true;
                       CmdWrite [cmd_data] true; CmdStop] ticks_1000ms);
        mem := mem w;
        trace := trace w ++
          [EvDelay ticks_100ms;
           EvDriverInstall I2C_EXAMPLE_MASTER_NUM I2C_MODE_MASTER;
           EvParamConfig I2C_EXAMPLE_MASTER_NUM master_conf;
           EvCmdBegin I2C_EXAMPLE_MASTER_NUM
             [CmdStart; CmdWriteByte 0x90 true; CmdWriteByte 0x01 true;
              CmdWrite [cmd_data] true; CmdStop] ticks_1000ms;
           EvAbort] |})).
  { rewrite ads_init_run, master_init_run. cbv zeta.
    change (install_status drv (emit drv (EvDelay ticks_100ms) w))
      with (st_install w).
    change (config_status drv (emit drv (EvDelay ticks_100ms) w))
      with (st_config w).
    rewrite Hi, Hc. cbn [Z.eqb ESP_OK].
    rewrite write_run, cmd_begin_run. cbn [bus mem trace emit].
    change (uint8 CONFIG_REG) with 1.
    change (configured_bus drv (emit drv (EvDelay ticks_100ms) w))
      with (bus_configured w).
    unfold boot_write_status in Hw.
    rewrite (status_eqb_false _ Hw).
    unfold emit. cbn [bus mem trace deliver].
    rewrite <- !app_assoc. reflexivity. }
  split; [ rewrite Hinit; reflexivity | ].
  rewrite task_run, Hinit. cbn [fst snd trace].
  split; [ reflexivity | split; [ reflexivity | ] ].
  intros w'.
  destruct (poll_once_returns sensor_data data_len w') as (w2 & rest & H & _).
  rewrite H. reflexivity.
Qed.

End Properties.

(** * Runs on the simulated drivers *)

(** C6: with a driver that always succeeds and yields the bytes 0x01 0x00, a
    pass of the loop logs two informational lines and sleeps 100 ms worth of
    ticks, but the line for the sensor value is the bare format: its text is
    the same for every value, the value handed to the log call is the
    untouched local and not the bytes just read, which went to the address
    the local's value happens to name. *)
Theorem poll_success_line_omits_value :
  let w0 := boot_world sim_driver 0%nat in
  let out := poll_once sim_driver 10 0x3000 2 w0 in
  fst out = Done tt /\
  trace (snd out) =
    [EvCmdBegin 0 [CmdStart; CmdWriteByte 0x90 true; CmdWriteByte 0x00 true;
                   CmdStop] 100;
     EvCmdBegin 0 [CmdStart; CmdWriteByte 0x91 true;
                   CmdRead 0x3000 2 LAST_NACK_VAL; CmdStop] 100;
     EvLog LogInfo TAG stars_fmt [];
     EvLog LogInfo TAG sensor_data_fmt [0x3000];
     EvDelay 10] /\
  load_bytes (mem (snd out)) 0x3000 2 = [0x01; 0x00] /\
  log_lines (trace (snd out)) =
    [(LogInfo, stars_fmt); (LogInfo, sensor_data_fmt)] /\
  forall v : Z, render sensor_data_fmt [v] = sensor_data_fmt.
Proof.
  cbv zeta. split; [ reflexivity | ].
  split; [ reflexivity | ].
  split; [ reflexivity | ].
  split; [ reflexivity | ].
  intros v. reflexivity.
Qed.

(** C7 as stated fails: on a driver that accepts everything the Bus
    Initializer calls the installation first and the configuration second. *)
Lemma init_configures_first_counterexample :
  let t := trace (snd (i2c_example_master_init sim_driver
                         (boot_world sim_driver 0%nat))) in
  t = [EvDriverInstall I2C_NUM_0 I2C_MODE_MASTER;
       EvParamConfig I2C_NUM_0 master_conf] /\
  config_before_install t = false /\
  install_before_config t = true.
Proof. cbv zeta. repeat split; reflexivity. Qed.

Lemma read_pointer_set_first_witness :
  let w0 := boot_world absent_sensor 0%nat in
  let out := i2c_example_master_ADS1115_read absent_sensor 10 0 0x00 0x3000 2 w0 in
  pointer_set_status absent_sensor 10 w0 0 0x00 <> ESP_OK /\
  fst out = Done ESP_FAIL /\
  trace (snd out) =
    [EvCmdBegin 0 [CmdStart; CmdWriteByte 0x90 true; CmdWriteByte 0x00 true;
                   CmdStop] 100].
Proof.
  cbv zeta.
  assert (Hko : pointer_set_status absent_sensor 10
                  (boot_world absent_sensor 0%nat) 0 0x00 <> ESP_OK)
    by (intro H; discriminate H).
  split; [ exact Hko | ].
  exact (proj2 (read_pointer_set_first absent_sensor 10
                  (boot_world absent_sensor 0%nat) 0 0x00 0x3000 2) Hko).
Defined.

Lemma write_byte_sequence_witness :
  let w0 := boot_world sim_driver 0%nat in
  In 0x01 [0x00; 0x01; 0x02; 0x03] /\
  0 < 10 /\
  1000 mod 10 = 0 /\
  exists cmd ticks,
    trace (snd (i2c_example_master_ADS1115_write sim_driver 10 0 0x01
                  [0x85; 0x83] w0)) =
      trace w0 ++ [EvCmdBegin 0 cmd ticks] /\
    bus_sequence cmd =
      BusStart :: BusWrite (Z.lor (Z.shiftl 0x48 1) 0) true ::
      BusWrite 0x01 true ::
      map (fun b => BusWrite b true) [0x85; 0x83] ++ [BusStop] /\
    ticks = 1000 / 10 /\
    ticks * 10 = 1000.
Proof.
  cbv zeta.
  assert (Hreg : In 0x01 [0x00; 0x01; 0x02; 0x03]) by (right; left; reflexivity).
  assert (Hpos : 0 < 10) by reflexivity.
  assert (Hdiv : 1000 mod 10 = 0) by reflexivity.
  split; [ exact Hreg | ].
  split; [ exact Hpos | ].
  split; [ exact Hdiv | ].
  exact (write_byte_sequence sim_driver 10 (boot_world sim_driver 0%nat) 0 0x01
           [0x85; 0x83] Hreg Hpos Hdiv).
Defined.

Lemma read_last_byte_terminal_ack_witness :
  let w0 := boot_world sim_driver 0%nat in
  (1 < 2)%nat /\
  pointer_set_status sim_driver 10 w0 0 0x00 = ESP_OK /\
  exists ev cmd acks,
    trace (snd (i2c_example_master_ADS1115_read sim_driver 10 0 0x00 0x3000 2 w0)) =
      trace w0 ++ [ev; EvCmdBegin 0 cmd (1000 / 10)] /\
    cmd = [CmdStart; CmdWriteByte 0x91 true; CmdRead 0x3000 2 LAST_NACK_VAL;
           CmdStop] /\
    bus_sequence cmd =
      [BusStart; BusWrite 0x91 true] ++ map BusRead acks ++ [BusStop] /\
    acks = repeat AckStandard (2 - 1) ++ [AckTerminal] /\
    List.length acks = 2%nat /\
    forall a, acks <> repeat a 2.
Proof.
  cbv zeta.
  assert (HN : (1 < 2)%nat) by lia.
  assert (Hok : pointer_set_status sim_driver 10 (boot_world sim_driver 0%nat)
                  0 0x00 = ESP_OK) by reflexivity.
  split; [ exact HN | ].
  split; [ exact Hok | ].
  exact (read_last_byte_terminal_ack sim_driver 10 (boot_world sim_driver 0%nat)
           0 0x00 0x3000 2 HN Hok).
Defined.

Lemma boot_driver_failure_is_fatal_witness :
  let w0 := boot_world no_install 0%nat in
  install_status no_install w0 <> ESP_OK /\
  fst (i2c_example_master_init no_install w0) = Aborted /\
  fst (i2c_task_example no_install 10 0x00 0x3000 2 5 w0) = Aborted.
Proof.
  cbv zeta.
  assert (Hko : install_status no_install (boot_world no_install 0%nat) <> ESP_OK)
    by (intro H; discriminate H).
  split; [ exact Hko | ].
  destruct (boot_driver_failure_is_fatal no_install 10
              (boot_world no_install 0%nat) 0x00 0x3000 2 5 (or_introl Hko))
    as [Hinit [Htask _]].
  split; [ exact Hinit | exact Htask ].
Defined.

Lemma poll_failure_continues_witness :
  let booted := i2c_example_master_ADS1115_init unplugged_sensor 10 0x00
                  I2C_EXAMPLE_MASTER_NUM (boot_world unplugged_sensor 0%nat) in
  let w0 := snd booted in
  let w1 := snd (i2c_example_master_ADS1115_read unplugged_sensor 10
                   I2C_EXAMPLE_MASTER_NUM CONVERSION_REG (uint16 0x3000) 2 w0) in
  fst booted = Done ESP_OK /\
  i2c_example_master_ADS1115_read unplugged_sensor 10
    I2C_EXAMPLE_MASTER_NUM CONVERSION_REG (uint16 0x3000) 2 w0
    = (Done ESP_FAIL, w1) /\
  ESP_FAIL <> ESP_OK /\
  exists w2,
    poll_once unplugged_sensor 10 0x3000 2 w0 = (Done tt, w2) /\
    trace w2 = trace w1 ++ [EvLog LogError TAG no_ack_fmt []; EvDelay (100 / 10)] /\
    forall n : nat,
    exists w3 evs,
      poll_loop unplugged_sensor 10 (S n) 0x3000 2 w0 = (Done tt, w3) /\
      trace w3 = trace w2 ++ evs /\
      pass_blocks 10 0x3000 2 n evs /\
      delays evs = repeat (100 / 10) n.
Proof.
  cbv zeta.
  set (w0 := snd (i2c_example_master_ADS1115_init unplugged_sensor 10 0x00
                    I2C_EXAMPLE_MASTER_NUM (boot_world unplugged_sensor 0%nat))).
  assert (Hread :
    i2c_example_master_ADS1115_read unplugged_sensor 10
      I2C_EXAMPLE_MASTER_NUM CONVERSION_REG (uint16 0x3000) 2 w0
    = (Done ESP_FAIL,
       snd (i2c_example_master_ADS1115_read unplugged_sensor 10
              I2C_EXAMPLE_MASTER_NUM CONVERSION_REG (uint16 0x3000) 2 w0)))
    by reflexivity.
  assert (Hko : ESP_FAIL <> ESP_OK) by (intro H; discriminate H).
  split; [ reflexivity | ].
  split; [ exact Hread | ].
  split; [ exact Hko | ].
  destruct (poll_failure_continues unplugged_sensor 10 _ _ _ 0x3000 2 Hread Hko)
    as (w2 & Hone & Htr & _ & _ & Hloop).
  exists w2. split; [ exact Hone | ]. split; [ exact Htr | ].
  intros n. destruct (Hloop n) as (w3 & evs & Hrun & _ & Htr3 & Hblocks & Hdel & _).
  exists w3, evs.
  split; [ exact Hrun | ].
  split; [ exact Htr3 | ].
  split; [ exact Hblocks | exact Hdel ].
Defined.

Lemma boot_write_failure_is_fatal_witness :
  let w0 := boot_world absent_sensor 0%nat in
  install_status absent_sensor w0 = ESP_OK /\
  config_status absent_sensor w0 = ESP_OK /\
  boot_write_status absent_sensor 10 w0 0x00 <> ESP_OK /\
  fst (i2c_example_master_ADS1115_init absent_sensor 10 0x00
         I2C_EXAMPLE_MASTER_NUM w0) = Aborted /\
  fst (i2c_task_example absent_sensor 10 0x00 0x3000 2 5 w0) = Aborted.
Proof.
  cbv zeta.
  assert (Hi : install_status absent_sensor (boot_world absent_sensor 0%nat)
               = ESP_OK) by reflexivity.
  assert (Hc : config_status absent_sensor (boot_world absent_sensor 0%nat)
               = ESP_OK) by reflexivity.
  assert (Hw : boot_write_status absent_sensor 10
                 (boot_world absent_sensor 0%nat) 0x00 <> ESP_OK)
    by (intro H; discriminate H).
  split; [ exact Hi | ].
  split; [ exact Hc | ].
  split; [ exact Hw | ].
  destruct (boot_write_failure_is_fatal absent_sensor 10
              (boot_world absent_sensor 0%nat) 0x00 0x3000 2 5 Hi Hc Hw)
    as (Hinit & Htask & _).
  split; [ exact Hinit | exact Htask ].
Defined.

Lemma read_failure_leaves_buffer_witness :
  let w0 := boot_world absent_sensor 0%nat in
  let out := i2c_example_master_ADS1115_read absent_sensor 10 0 0x00 0x3000 2 w0 in
  pointer_set_status absent_sensor 10 w0 0 0x00 <> ESP_OK /\
  mem (snd out) = mem w0 /\
  load_bytes (mem (snd out)) 0x3000 2 = load_bytes (mem w0) 0x3000 2.
Proof.
  cbv zeta.
  assert (Hko : pointer_set_status absent_sensor 10
                  (boot_world absent_sensor 0%nat) 0 0x00 <> ESP_OK)
    by (intro H; discriminate H).
  split; [ exact Hko | ].
  destruct (read_failure_leaves_buffer absent_sensor 10
              (boot_world absent_sensor 0%nat) 0 0x00 0x3000 2 Hko)
    as (Hmem & Hbuf & _).
  split; [ exact Hmem | exact Hbuf ].
Defined.

(** * Further properties of the layer and of the task *)

(** ** Memory *)

Lemma store_bytes_outside (bs : list Z) :
  forall (m : memory) (a x : Z),
    outside a (List.length bs) x -> store_bytes m a bs x = m x.
Proof.
  unfold outside.
  induction bs as [ | b rest IH ]; intros m a x Hx; [ reflexivity | ].
  cbn [store_bytes]. cbn [List.length] in Hx.
  rewrite IH by lia.
  unfold mem_set. destruct (Z.eqb_spec x a) as [-> | _]; [ lia | reflexivity ].
Qed.

Lemma outside_firstn (a : Z) (n : nat) (x : Z) (rx : list Z) :
  outside a n x -> outside a (List.length (firstn n rx)) x.
Proof.
  unfold outside. intros Hx.
  pose proof (firstn_le_length n rx). lia.
Qed.

Section Coverage.

Variable drv : i2c_driver.
Variable portTICK_RATE_MS : Z.

Local Abbreviation master_init := (i2c_example_master_init drv).
Local Abbreviation ads_write := (i2c_example_master_ADS1115_write drv portTICK_RATE_MS).
Local Abbreviation ads_read := (i2c_example_master_ADS1115_read drv portTICK_RATE_MS).
Local Abbreviation ads_init := (i2c_example_master_ADS1115_init drv portTICK_RATE_MS).
Local Abbreviation ticks_1000ms := (1000 / portTICK_RATE_MS).
Local Abbreviation ticks_100ms := (100 / portTICK_RATE_MS).
Local Abbreviation st_pointer_set := (pointer_set_status drv portTICK_RATE_MS).
Local Abbreviation st_install := (install_status drv).
Local Abbreviation st_config := (config_status drv).
Local Abbreviation bus_configured := (configured_bus drv).
Local Abbreviation st_boot_write := (boot_write_status drv portTICK_RATE_MS).
Local Abbreviation loop_pass := (poll_once drv portTICK_RATE_MS).
Local Abbreviation loop := (poll_loop drv portTICK_RATE_MS).
Local Abbreviation task := (i2c_task_example drv portTICK_RATE_MS).
Local Abbreviation event_ok := (task_event_ok portTICK_RATE_MS).

(** ** Write *)

(** X1: whatever the driver answers, Write submits its transaction exactly
    once, returns the driver's status as it is and leaves the memory
    untouched, even when the driver hands bytes back. *)
Theorem write_once_status_unchanged (w : world drv) (i2c_num : i2c_port_t)
  (reg_address : Z) (data : list Z) :
  let cmd := [CmdStart; CmdWriteByte 0x90 true;
              CmdWriteByte (uint8 reg_address) true; CmdWrite data true;
              CmdStop] in
  exists st rx b,
    cmd_begin_resp drv (bus w) i2c_num cmd ticks_1000ms = (st, rx, b) /\
    ads_write i2c_num reg_address data w =
      (Done st,
       {| bus := b; mem := mem w;
          trace := trace w ++ [EvCmdBegin i2c_num cmd ticks_1000ms] |}).
Proof.
  cbv zeta. rewrite write_run, cmd_begin_run.
  destruct (cmd_begin_resp drv (bus w) i2c_num
              [CmdStart; CmdWriteByte 144 true;
               CmdWriteByte (uint8 reg_address) true; CmdWrite data true;
               CmdStop] ticks_1000ms)
    as [[st rx] b].
  exists st, rx, b. split; reflexivity.
Qed.

(** ** Read *)

(** The answer of the driver to the data transaction of a Read started in
    [w], the pointer-set transaction having been answered before. *)
Lemma read_run_ok (w : world drv) (i2c_num : i2c_port_t)
  (reg_address data : Z) (data_len : nat) :
  st_pointer_set w i2c_num reg_address = ESP_OK ->
  let ptr := [CmdStart; CmdWriteByte 0x90 true;
              CmdWriteByte (uint8 reg_address) true; CmdStop] in
  let dat := [CmdStart; CmdWriteByte 0x91 true;
              CmdRead data data_len LAST_NACK_VAL; CmdStop] in
  let b1 := snd (cmd_begin_resp drv (bus w) i2c_num ptr ticks_1000ms) in
  let resp := cmd_begin_resp drv b1 i2c_num dat ticks_1000ms in
  ads_read i2c_num reg_address data data_len w =
  (Done (fst (fst resp)),
   {| bus := snd resp;
      mem := store_bytes (mem w) data (firstn data_len (snd (fst resp)));
      trace := trace w ++ [EvCmdBegin i2c_num ptr ticks_1000ms;
                           EvCmdBegin i2c_num dat ticks_1000ms] |}).
Proof.
  intros Hok. cbv zeta. unfold pointer_set_status in Hok.
  rewrite read_run, cmd_begin_run, Hok. cbn [Z.eqb ESP_OK].
  rewrite cmd_begin_run. cbn [bus mem trace deliver].
  rewrite <- app_assoc. reflexivity.
Qed.

Lemma read_run_ko (w : world drv) (i2c_num : i2c_port_t)
  (reg_address data : Z) (data_len : nat) :
  st_pointer_set w i2c_num reg_address <> ESP_OK ->
  let ptr := [CmdStart; CmdWriteByte 0x90 true;
              CmdWriteByte (uint8 reg_address) true; CmdStop] in
  ads_read i2c_num reg_address data data_len w =
  (Done (st_pointer_set w i2c_num reg_address),
   {| bus := snd (cmd_begin_resp drv (bus w) i2c_num ptr ticks_1000ms);
      mem := mem w;
      trace := trace w ++ [EvCmdBegin i2c_num ptr ticks_1000ms] |}).
Proof.
  intros Hko. cbv zeta. unfold pointer_set_status in *.
  rewrite read_run, cmd_begin_run, (status_eqb_false _ Hko).
  reflexivity.
Qed.

(** X2: when the pointer-set transaction succeeds, Read submits exactly two
    transactions and what it returns is the driver's status for the second
    one, success or not. *)
Theorem read_returns_data_status (w : world drv) (i2c_num : i2c_port_t)
  (reg_address data : Z) (data_len : nat) :
  st_pointer_set w i2c_num reg_address = ESP_OK ->
  let ptr := [CmdStart; CmdWriteByte 0x90 true;
              CmdWriteByte (uint8 reg_address) true; CmdStop] in
  let dat := [CmdStart; CmdWriteByte 0x91 true;
              CmdRead data data_len LAST_NACK_VAL; CmdStop] in
  let b1 := snd (cmd_begin_resp drv (bus w) i2c_num ptr ticks_1000ms) in
  let out := ads_read i2c_num reg_address data data_len w in
  exists st2 rx2 b2,
    cmd_begin_resp drv b1 i2c_num dat ticks_1000ms = (st2, rx2, b2) /\
    fst out = Done st2 /\
    bus (snd out) = b2 /\
    trace (snd out) =
      trace w ++ [EvCmdBegin i2c_num ptr ticks_1000ms;
                  EvCmdBegin i2c_num dat ticks_1000ms].
Proof.
  intros Hok. cbv zeta. rewrite (read_run_ok _ _ _ _ _ Hok). cbv zeta.
  destruct (cmd_begin_resp drv _ i2c_num
              [CmdStart; CmdWriteByte 145 true;
               CmdRead data data_len LAST_NACK_VAL; CmdStop] ticks_1000ms)
    as [[st2 rx2] b2].
  exists st2, rx2, b2. repeat split.
Qed.

(** ** Boot *)

Lemma ads_init_boot_run (cmd_data : Z) (w : world drv) :
  ads_init cmd_data I2C_EXAMPLE_MASTER_NUM w =
  let boot_link := [CmdStart; CmdWriteByte 0x90 true; CmdWriteByte 0x01 true;
                    CmdWrite [cmd_data] true; CmdStop] in
  let t0 := trace w ++
            [EvDelay ticks_100ms;
             EvDriverInstall I2C_EXAMPLE_MASTER_NUM I2C_MODE_MASTER] in
  let t1 := t0 ++ [EvParamConfig I2C_EXAMPLE_MASTER_NUM master_conf] in
  let t2 := t1 ++ [EvCmdBegin I2C_EXAMPLE_MASTER_NUM boot_link ticks_1000ms] in
  let b3 := snd (cmd_begin_resp drv (bus_configured w) I2C_EXAMPLE_MASTER_NUM
                   boot_link ticks_1000ms) in
  if st_install w =? ESP_OK then
    if st_config w =? ESP_OK then
      if st_boot_write w cmd_data =? ESP_OK
      then (Done ESP_OK, {| bus := b3; mem := mem w; trace := t2 |})
      else (Aborted, {| bus := b3; mem := mem w; trace := t2 ++ [EvAbort] |})
    else (Aborted, {| bus := bus_configured w; mem := mem w;
                      trace := t1 ++ [EvAbort] |})
  else (Aborted, {| bus := installed_bus drv w; mem := mem w;
                    trace := t0 ++ [EvAbort] |}).
Proof.
  cbv zeta. rewrite ads_init_run, master_init_run. cbv zeta.
  change (install_status drv (emit drv (EvDelay ticks_100ms) w))
    with (st_install w).
  change (config_status drv (emit drv (EvDelay ticks_100ms) w))
    with (st_config w).
  change (configured_bus drv (emit drv (EvDelay ticks_100ms) w))
    with (bus_configured w).
  change (installed_bus drv (emit drv (EvDelay ticks_100ms) w))
    with (installed_bus drv w).
  destruct (st_install w =? ESP_OK).
  - destruct (st_config w =? ESP_OK).
    + rewrite write_run, cmd_begin_run. cbn [bus mem trace emit deliver].
      change (uint8 CONFIG_REG) with 1.
      unfold boot_write_status.
      destruct (_ =? ESP_OK); unfold emit; cbn [bus mem trace];
        rewrite <- ?app_assoc; reflexivity.
    + unfold emit. cbn [bus mem trace]. rewrite <- ?app_assoc. reflexivity.
  - unfold emit. cbn [bus mem trace]. rewrite <- ?app_assoc. reflexivity.
Qed.

(** X7: neither initialiser ever returns an error status: each either
    returns success or aborts, so the callers that drop the returned value
    lose nothing. *)
Theorem init_returns_ok_or_aborts (w : world drv) (cmd_data : Z)
  (i2c_num : i2c_port_t) :
  (fst (master_init w) = Done ESP_OK \/ fst (master_init w) = Aborted) /\
  (fst (ads_init cmd_data i2c_num w) = Done ESP_OK \/
   fst (ads_init cmd_data i2c_num w) = Aborted).
Proof.
  split.
  - rewrite master_init_run. cbv zeta.
    destruct (_ =? ESP_OK); [ | right; reflexivity ].
    destruct (_ =? ESP_OK); [ left | right ]; reflexivity.
  - rewrite ads_init_run.
    destruct (master_init _) as [[r1 | ] w1]; [ | right; reflexivity ].
    destruct (ads_write _ _ _ _) as [[r2 | ] w2]; [ | right; reflexivity ].
    destruct (r2 =? ESP_OK); [ left | right ]; reflexivity.
Qed.

(** ** The loop *)

Ltac event_ok_tac :=
  repeat
    match goal with
    | |- Forall _ [] => constructor
    | |- Forall _ (_ :: _) => constructor
    | |- Forall _ (_ ++ _) => apply Forall_app; split
    | |- task_event_ok _ _ => cbn [task_event_ok]
    | |- link_ok _ => split; [ split; reflexivity | do 2 eexists; split; reflexivity ]
    | |- _ /\ _ => split
    | |- _ = _ => reflexivity
    | |- True => exact I
    end.

Lemma pass_events (sensor_data : Z) (data_len : nat) (w : world drv) :
  exists w' evs,
    loop_pass sensor_data data_len w = (Done tt, w') /\
    trace w' = trace w ++ evs /\
    Forall event_ok evs /\
    forallb is_loop_event evs = true /\
    forall x, outside (uint16 sensor_data) data_len x -> mem w' x = mem w x.
Proof.
  destruct (Z.eq_dec (st_pointer_set w I2C_EXAMPLE_MASTER_NUM CONVERSION_REG)
              ESP_OK) as [Hok | Hko].
  - pose proof (read_run_ok w I2C_EXAMPLE_MASTER_NUM CONVERSION_REG
                  (uint16 sensor_data) data_len Hok) as Hread.
    cbv zeta in Hread.
    rewrite (poll_once_run _ _ _ _ _ _ _ Hread).
    do 2 eexists. split; [ reflexivity | ].
    cbn [bus mem trace].
    split; [ rewrite <- app_assoc; reflexivity | ].
    split; [ | split ].
    + destruct (_ =? ESP_OK); event_ok_tac.
    + destruct (_ =? ESP_OK); reflexivity.
    + intros x Hx. apply store_bytes_outside, outside_firstn, Hx.
  - pose proof (read_run_ko w I2C_EXAMPLE_MASTER_NUM CONVERSION_REG
                  (uint16 sensor_data) data_len Hko) as Hread.
    cbv zeta in Hread.
    rewrite (poll_once_run _ _ _ _ _ _ _ Hread).
    rewrite (status_eqb_false _ Hko).
    do 2 eexists. split; [ reflexivity | ].
    cbn [bus mem trace].
    split; [ rewrite <- app_assoc; reflexivity | ].
    split; [ event_ok_tac | split; [ reflexivity | reflexivity ] ].
Qed.

Lemma loop_events (sensor_data : Z) (data_len : nat) (n : nat) :
  forall w : world drv,
  exists w' evs,
    loop n sensor_data data_len w = (Done tt, w') /\
    trace w' = trace w ++ evs /\
    Forall event_ok evs /\
    forallb is_loop_event evs = true /\
    delays evs = repeat ticks_100ms n /\
    forall x, outside (uint16 sensor_data) data_len x -> mem w' x = mem w x.
Proof.
  induction n as [ | k IH ]; intros w.
  - exists w, []. cbn [poll_loop ret]. rewrite app_nil_r.
    repeat split. constructor.
  - destruct (pass_events sensor_data data_len w)
      as (w1 & evs1 & Hone & Htr1 & Hok1 & Hloop1 & Hmem1).
    destruct (IH w1) as (w2 & evs2 & Hrun & Htr2 & Hok2 & Hloop2 & Hdel2 & Hmem2).
    destruct (poll_once_returns drv portTICK_RATE_MS sensor_data data_len w)
      as (w1' & rest & Hone' & Htr1' & Hdel1).
    rewrite Hone in Hone'. injection Hone' as <-.
    rewrite Htr1 in Htr1'. apply app_inv_head in Htr1'.
    exists w2, (evs1 ++ evs2).
    cbn [poll_loop]. unfold bind. rewrite Hone.
    split; [ exact Hrun | ].
    split; [ rewrite Htr2, Htr1, app_assoc; reflexivity | ].
    split; [ apply Forall_app; split; assumption | ].
    split; [ rewrite forallb_app, Hloop1, Hloop2; reflexivity | ].
    split.
    + unfold delays in *. rewrite flat_map_app, Hdel2, Htr1'.
      cbn [flat_map app]. rewrite Hdel1. reflexivity.
    + intros x Hx. rewrite Hmem2, Hmem1 by exact Hx. reflexivity.
Qed.

Lemma loop_events_no_boot (evs : list event) :
  forallb is_loop_event evs = true ->
  existsb is_install evs = false /\
  filter is_config evs = [] /\
  filter is_abort evs = [].
Proof.
  induction evs as [ | e rest IH ]; intros H; [ repeat split | ].
  cbn [forallb] in H. apply andb_prop in H. destruct H as [He Hrest].
  destruct (IH Hrest) as (Hi & Hc & Ha).
  destruct e; try discriminate He;
    cbn [existsb filter is_install is_config is_abort orb];
    repeat split; assumption.
Qed.

(** ** The task *)

(** The boot has succeeded when the driver answered success to the
    installation, to the configuration and to the configuration write. *)
Local Abbreviation boot_ok w cmd_data :=
  ((st_install w =? ESP_OK) && (st_config w =? ESP_OK) &&
   (st_boot_write w cmd_data =? ESP_OK))%bool.

Lemma task_shape (cmd_data sensor_data : Z) (data_len n : nat) (w : world drv) :
  exists w' boot evs,
    task cmd_data sensor_data data_len n w =
      (if boot_ok w cmd_data then Done tt else Aborted, w') /\
    trace w' =
      trace w ++
      EvDelay ticks_100ms ::
      EvDriverInstall I2C_EXAMPLE_MASTER_NUM I2C_MODE_MASTER :: boot ++ evs /\
    Forall event_ok boot /\
    Forall event_ok evs /\
    existsb is_install boot = false /\
    (List.length (filter is_config boot) <= 1)%nat /\
    (List.length (filter is_abort boot) <= 1)%nat /\
    forallb is_loop_event evs = true /\
    (forall x, outside (uint16 sensor_data) data_len x -> mem w' x = mem w x).
Proof.
  rewrite task_run, ads_init_boot_run. cbv zeta.
  destruct (st_install w =? ESP_OK); cbn [andb].
  - destruct (st_config w =? ESP_OK); cbn [andb].
    + destruct (st_boot_write w cmd_data =? ESP_OK).
      * match goal with
        | |- context [ loop n sensor_data data_len ?w3 ] =>
            destruct (loop_events sensor_data data_len n w3)
              as (w' & evs & Hrun & Htr & Hok & Hloop & _ & Hmem)
        end.
        rewrite Hrun. cbn [trace mem] in Htr, Hmem.
        exists w'.
        exists [EvParamConfig I2C_EXAMPLE_MASTER_NUM master_conf;
                EvCmdBegin I2C_EXAMPLE_MASTER_NUM
                  [CmdStart; CmdWriteByte 0x90 true; CmdWriteByte 0x01 true;
                   CmdWrite [cmd_data] true; CmdStop] ticks_1000ms].
        exists evs.
        split; [ reflexivity | ].
        split; [ rewrite Htr, <- !app_assoc; reflexivity | ].
        split; [ event_ok_tac | ].
        split; [ exact Hok | ].
        split; [ reflexivity | ].
        split; [ cbn [filter is_config List.length]; lia | ].
        split; [ cbn [filter is_abort List.length]; lia | ].
        split; [ exact Hloop | exact Hmem ].
      * eexists.
        exists [EvParamConfig I2C_EXAMPLE_MASTER_NUM master_conf;
                EvCmdBegin I2C_EXAMPLE_MASTER_NUM
                  [CmdStart; CmdWriteByte 0x90 true; CmdWriteByte 0x01 true;
                   CmdWrite [cmd_data] true; CmdStop] ticks_1000ms;
                EvAbort].
        exists [].
        split; [ reflexivity | ]. cbn [trace mem].
        split; [ rewrite <- !app_assoc; reflexivity | ].
        split; [ event_ok_tac | ].
        split; [ constructor | ].
        split; [ reflexivity | ].
        split; [ cbn [filter is_config List.length]; lia | ].
        split; [ cbn [filter is_abort List.length]; lia | ].
        split; [ reflexivity | reflexivity ].
    + eexists.
      exists [EvParamConfig I2C_EXAMPLE_MASTER_NUM master_conf; EvAbort].
      exists [].
      split; [ reflexivity | ]. cbn [trace mem].
      split; [ rewrite <- !app_assoc; reflexivity | ].
      split; [ event_ok_tac | ].
      split; [ constructor | ].
      split; [ reflexivity | ].
      split; [ cbn [filter is_config List.length]; lia | ].
      split; [ cbn [filter is_abort List.length]; lia | ].
      split; [ reflexivity | reflexivity ].
  - eexists. exists [EvAbort]. exists [].
    split; [ reflexivity | ]. cbn [trace mem].
    split; [ rewrite <- !app_assoc; reflexivity | ].
    split; [ event_ok_tac | ].
    split; [ constructor | ].
    split; [ reflexivity | ].
    split; [ cbn [filter is_config List.length]; lia | ].
    split; [ cbn [filter is_abort List.length]; lia | ].
    split; [ reflexivity | reflexivity ].
Qed.

(** X6: the task aborts exactly when the boot fails: observed up to any
    number of loop passes it is still running when the driver answered
    success to the installation, the configuration and the configuration
    write, and it is aborted otherwise. *)
Theorem task_aborts_iff_boot_fails (w : world drv) (cmd_data sensor_data : Z)
  (data_len n : nat) :
  fst (task cmd_data sensor_data data_len n w) =
  if ((st_install w =? ESP_OK) && (st_config w =? ESP_OK) &&
      (st_boot_write w cmd_data =? ESP_OK))%bool
  then Done tt else Aborted.
Proof.
  destruct (task_shape cmd_data sensor_data data_len n w)
    as (w' & boot & evs & Hrun & _).
  rewrite Hrun. reflexivity.
Qed.

(** X5: after a successful boot the trace of the task is the start-up
    delay, the installation, the configuration and the configuration write,
    followed by the events of the loop, which for [n] passes hold [n] delays
    of the fixed interval and no call other than transfers, log lines and
    delays. *)
Theorem task_runs_after_boot (w : world drv) (cmd_data sensor_data : Z)
  (data_len n : nat) :
  st_install w = ESP_OK ->
  st_config w = ESP_OK ->
  st_boot_write w cmd_data = ESP_OK ->
  exists w' evs,
    task cmd_data sensor_data data_len n w = (Done tt, w') /\
    trace w' =
      trace w ++
      [EvDelay ticks_100ms;
       EvDriverInstall I2C_EXAMPLE_MASTER_NUM I2C_MODE_MASTER;
       EvParamConfig I2C_EXAMPLE_MASTER_NUM master_conf;
       EvCmdBegin I2C_EXAMPLE_MASTER_NUM
         [CmdStart; CmdWriteByte 0x90 true; CmdWriteByte 0x01 true;
          CmdWrite [cmd_data] true; CmdStop] ticks_1000ms] ++ evs /\
    delays evs = repeat ticks_100ms n /\
    forallb is_loop_event evs = true.
Proof.
  intros Hi Hc Hw.
  rewrite task_run, ads_init_boot_run. cbv zeta.
  rewrite Hi, Hc, Hw. cbn [Z.eqb ESP_OK].
  match goal with
  | |- context [ loop n sensor_data data_len ?w3 ] =>
      destruct (loop_events sensor_data data_len n w3)
        as (w' & evs & Hrun & Htr & _ & Hloop & Hdel & _)
  end.
  exists w', evs. cbn [trace] in Htr.
  split; [ exact Hrun | ].
  split; [ rewrite Htr, <- !app_assoc; reflexivity | ].
  split; assumption.
Qed.

(** X8: every event of the task, in every run and up to any number of
    passes, keeps to the fixed parameters: transfers go to port
    [I2C_EXAMPLE_MASTER_NUM] with the 1000 ms timeout in ticks, on framed
    links whose first byte, acknowledgment-checked, addresses the device
    0x48; delays are the 100 ms interval in ticks; the configuration is the
    compiled-in one; log lines carry the tag of the file. *)
Theorem task_events_keep_parameters (w : world drv) (cmd_data sensor_data : Z)
  (data_len n : nat) :
  exists evs,
    trace (snd (task cmd_data sensor_data data_len n w)) = trace w ++ evs /\
    Forall event_ok evs.
Proof.
  destruct (task_shape cmd_data sensor_data data_len n w)
    as (w' & boot & evs & Hrun & Htr & Hboot & Hevs & _).
  rewrite Hrun. cbn [snd]. eexists. split; [ exact Htr | ].
  constructor; [ reflexivity | ].
  constructor; [ reflexivity | ].
  apply Forall_app. split; assumption.
Qed.

(** X9: in every run of the task the driver is installed exactly once,
    right after the start-up delay and before anything else; the
    configuration is applied at most once and the loop never installs or
    configures again. *)
Theorem task_installs_once (w : world drv) (cmd_data sensor_data : Z)
  (data_len n : nat) :
  exists rest,
    trace (snd (task cmd_data sensor_data data_len n w)) =
      trace w ++
      EvDelay ticks_100ms ::
      EvDriverInstall I2C_EXAMPLE_MASTER_NUM I2C_MODE_MASTER :: rest /\
    existsb is_install rest = false /\
    (List.length (filter is_config rest) <= 1)%nat /\
    (List.length (filter is_abort rest) <= 1)%nat.
Proof.
  destruct (task_shape cmd_data sensor_data data_len n w)
    as (w' & boot & evs & Hrun & Htr & _ & _ & Hi & Hc & Ha & Hloop & _).
  destruct (loop_events_no_boot evs Hloop) as (Hi2 & Hc2 & Ha2).
  rewrite Hrun. cbn [snd]. exists (boot ++ evs).
  split; [ exact Htr | ].
  rewrite existsb_app, !filter_app, Hi, Hi2, Hc2, Ha2, !app_nil_r.
  repeat split; assumption.
Qed.

(** X11: for every driver, a pass whose Read returns success adds exactly
    two informational log calls and the delay; the text of the two lines is
    fixed: it depends neither on the bytes received nor on the value of
    [sensor_data]. *)
Theorem pass_success_lines_fixed (w w1 : world drv) (sensor_data : Z)
  (data_len : nat) :
  ads_read I2C_EXAMPLE_MASTER_NUM CONVERSION_REG (uint16 sensor_data) data_len w
    = (Done ESP_OK, w1) ->
  exists w2 evs,
    loop_pass sensor_data data_len w = (Done tt, w2) /\
    trace w2 = trace w1 ++ evs ++ [EvDelay ticks_100ms] /\
    evs = [EvLog LogInfo TAG stars_fmt [];
           EvLog LogInfo TAG sensor_data_fmt [int16 sensor_data]] /\
    log_lines evs = [(LogInfo, stars_fmt); (LogInfo, sensor_data_fmt)] /\
    mem w2 = mem w1.
Proof.
  intros Hread.
  rewrite (poll_once_run _ _ _ _ _ _ _ Hread). cbn [Z.eqb ESP_OK].
  do 2 eexists. split; [ reflexivity | ].
  cbn [trace mem]. repeat split.
Qed.

End Coverage.

(** ** Runs of the further properties *)

Lemma read_returns_data_status_witness :
  let w0 := boot_world unplugged_sensor 0%nat in
  let out := i2c_example_master_ADS1115_read unplugged_sensor 10 0 0x00 0x3000 2 w0 in
  pointer_set_status unplugged_sensor 10 w0 0 0x00 = ESP_OK /\
  fst out = Done ESP_FAIL /\
  List.length (submitted (trace (snd out))) = 2%nat.
Proof.
  cbv zeta.
  assert (Hok : pointer_set_status unplugged_sensor 10
                  (boot_world unplugged_sensor 0%nat) 0 0x00 = ESP_OK)
    by reflexivity.
  split; [ exact Hok | ].
  destruct (read_returns_data_status unplugged_sensor 10
              (boot_world unplugged_sensor 0%nat) 0 0x00 0x3000 2 Hok)
    as (st2 & rx2 & b2 & Hresp & Hst & _ & Htr).
  injection Hresp as <- _ _.
  split; [ exact Hst | ].
  rewrite Htr. reflexivity.
Defined.

Lemma task_runs_after_boot_witness :
  let w0 := boot_world sim_driver 0%nat in
  install_status sim_driver w0 = ESP_OK /\
  config_status sim_driver w0 = ESP_OK /\
  boot_write_status sim_driver 10 w0 0x00 = ESP_OK /\
  exists w' evs,
    i2c_task_example sim_driver 10 0x00 0x3000 2 3 w0 = (Done tt, w') /\
    delays evs = repeat (100 / 10) 3 /\
    forallb is_loop_event evs = true.
Proof.
  cbv zeta.
  assert (Hi : install_status sim_driver (boot_world sim_driver 0%nat) = ESP_OK)
    by reflexivity.
  assert (Hc : config_status sim_driver (boot_world sim_driver 0%nat) = ESP_OK)
    by reflexivity.
  assert (Hw : boot_write_status sim_driver 10 (boot_world sim_driver 0%nat) 0x00
               = ESP_OK) by reflexivity.
  split; [ exact Hi | ].
  split; [ exact Hc | ].
  split; [ exact Hw | ].
  destruct (task_runs_after_boot sim_driver 10 (boot_world sim_driver 0%nat)
              0x00 0x3000 2 3 Hi Hc Hw)
    as (w' & evs & Hrun & _ & Hdel & Hloop).
  exists w', evs. split; [ exact Hrun | split; [ exact Hdel | exact Hloop ] ].
Defined.

Lemma pass_success_lines_fixed_witness :
  let w0 := boot_world sim_driver 0%nat in
  let w1 := snd (i2c_example_master_ADS1115_read sim_driver 10
                   I2C_EXAMPLE_MASTER_NUM CONVERSION_REG (uint16 0x3000) 2 w0) in
  i2c_example_master_ADS1115_read sim_driver 10
    I2C_EXAMPLE_MASTER_NUM CONVERSION_REG (uint16 0x3000) 2 w0
    = (Done ESP_OK, w1) /\
  exists w2 evs,
    poll_once sim_driver 10 0x3000 2 w0 = (Done tt, w2) /\
    trace w2 = trace w1 ++ evs ++ [EvDelay (100 / 10)] /\
    log_lines evs = [(LogInfo, stars_fmt); (LogInfo, sensor_data_fmt)].
Proof.
  cbv zeta.
  assert (Hread :
    i2c_example_master_ADS1115_read sim_driver 10
      I2C_EXAMPLE_MASTER_NUM CONVERSION_REG (uint16 0x3000) 2
      (boot_world sim_driver 0%nat)
    = (Done ESP_OK,
       snd (i2c_example_master_ADS1115_read sim_driver 10
              I2C_EXAMPLE_MASTER_NUM CONVERSION_REG (uint16 0x3000) 2
              (boot_world sim_driver 0%nat)))) by reflexivity.
  split; [ exact Hread | ].
  destruct (pass_success_lines_fixed sim_driver 10 _ _ 0x3000 2 Hread)
    as (w2 & evs & Hone & Htr & _ & Hlines & _).
  exists w2, evs. split; [ exact Hone | split; [ exact Htr | exact Hlines ] ].
Defined.
